(** * Book recommender: the plan executor of [core_logic1.py] and the panel of [app1.py]

    A shallow embedding of the Python sources.  Python text is modelled as
    [string] (8-bit characters; the case and character-class functions are the
    ASCII ones, characters above 127 are carried along unchanged and count as
    word characters).  Code that prints, calls the network or raises runs in
    the monad [M]: a log of the effects performed, in order, and either a value
    or the exception raised. *)

From Stdlib Require Import List String Ascii Bool ZArith QArith Lia.
From Stdlib Require Import Permutation Sorting.Sorted.
Import ListNotations.

Local Open Scope string_scope.
Local Open Scope list_scope.
Local Open Scope Z_scope.

Set Implicit Arguments.
Set Warnings "-register-all".

(* ====================================================================== *)
(** ** Text primitives: [str.lower], [str.strip], [in], [re.sub] *)

Definition code (c : ascii) : nat := nat_of_ascii c.

Definition is_upper (c : ascii) : bool :=
  (Nat.leb 65 (code c) && Nat.leb (code c) 90)%bool.

Definition is_lower (c : ascii) : bool :=
  (Nat.leb 97 (code c) && Nat.leb (code c) 122)%bool.

Definition is_digit (c : ascii) : bool :=
  (Nat.leb 48 (code c) && Nat.leb (code c) 57)%bool.

(** [\w]: letters, digits and the underscore. *)
Definition is_word (c : ascii) : bool :=
  (is_upper c || is_lower c || is_digit c || Nat.eqb (code c) 95
   || Nat.leb 128 (code c))%bool.

(** [\s] and [str.isspace]: tab, line feed, vertical tab, form feed, carriage
    return, the four separators 28..31 and the space. *)
Definition is_space (c : ascii) : bool :=
  (Nat.leb 9 (code c) && Nat.leb (code c) 13
   || Nat.leb 28 (code c) && Nat.leb (code c) 32)%bool.

Definition lower_char (c : ascii) : ascii :=
  if is_upper c then ascii_of_nat (code c + 32) else c.

(** [s.lower()] *)
Fixpoint lower (s : string) : string :=
  match s with
  | EmptyString => EmptyString
  | String c s' => String (lower_char c) (lower s')
  end.

(** [re.sub(r'[^\w\s]', '', s)]: every character that is neither a word
    character nor white space is deleted. *)
Fixpoint strip_punctuation (s : string) : string :=
  match s with
  | EmptyString => EmptyString
  | String c s' =>
      if (is_word c || is_space c)%bool
      then String c (strip_punctuation s')
      else strip_punctuation s'
  end.

(** [needle in hay] on strings: [needle] occurs at some offset of [hay]. *)
Fixpoint contains (needle hay : string) : bool :=
  if String.prefix needle hay then true
  else match hay with
       | EmptyString => false
       | String _ hay' => contains needle hay'
       end.

Fixpoint lstrip (s : string) : string :=
  match s with
  | String c s' => if is_space c then lstrip s' else s
  | EmptyString => EmptyString
  end.

(** White space at the end is dropped: a character is kept when it is not
    white space or when something is kept after it. *)
Fixpoint rstrip (s : string) : string :=
  match s with
  | EmptyString => EmptyString
  | String c s' =>
      match rstrip s' with
      | EmptyString => if is_space c then EmptyString else String c EmptyString
      | r => String c r
      end
  end.

(** [s.strip()] *)
Definition strip (s : string) : string := rstrip (lstrip s).

(* ====================================================================== *)
(** ** Effects: printed lines, network requests, exceptions *)

Inductive exn : Type :=
| KeyError (key : string)
| TypeError
| AttributeError
| IndexError
| AssertionError
| ValueError
| LiteralError          (* SyntaxError or ValueError of [ast.literal_eval] *)
| NetworkError          (* any exception of [requests.get] *)
| GraphRecursionError.  (* the driver gave up before END *)

Inductive event : Type :=
| PrintDebugSubject (subject : string)
    (* print(f"[DEBUG] Extracted subject: {subject}") *)
| PrintWarnNoGenre
    (* print("[WARN] No genre matched in query ...") *)
| PrintParseFailure (plan_str : string)
    (* print("Could not parse LLM response. Got:", plan_str) *)
| HttpGet (subject : string) (max_results : Z).
    (* requests.get(url, params=...) *)

Inductive result (A : Type) : Type :=
| Ok (a : A)
| Raise (e : exn).

Arguments Ok {A} a.
Arguments Raise {A} e.

(** A computation: the effects it performed and how it ended. *)
Definition M (A : Type) : Type := (list event * result A)%type.

Definition ret {A} (a : A) : M A := ([], Ok a).
Definition raise {A} (e : exn) : M A := ([], Raise e).
Definition emit (ev : event) : M unit := ([ev], Ok tt).
Definition lift {A} (r : result A) : M A := ([], r).

Definition bind {A B} (m : M A) (f : A -> M B) : M B :=
  match m with
  | (l, Ok a) => let (l', r) := f a in (l ++ l', r)
  | (l, Raise e) => (l, Raise e)
  end.

Notation "x <- m ;; k" := (bind m (fun x => k))
  (at level 61, m at next level, right associativity).
Notation "m ;;; k" := (bind m (fun _ => k))
  (at level 61, right associativity).

Definition trace {A} (m : M A) : list event := fst m.
Definition outcome {A} (m : M A) : result A := snd m.

Definition raises {A} (m : M A) : Prop := exists e, outcome m = Raise e.
Definition returns {A} (m : M A) (a : A) : Prop := outcome m = Ok a.

(* ====================================================================== *)
(** ** Genre Extractor *)

(** [subject_keywords]: canonical subject and its phrases, in the order the
    dictionary literal lists them (the iteration order of a Python dict). *)
Definition subject_keywords : list (string * list string) :=
  [ ("science fiction", ["science fiction"; "sci-fi"; "sci fi"]);
    ("fantasy", ["fantasy"]);
    ("thriller", ["thriller"; "suspense"]);
    ("romance", ["romance"; "love story"; "romantic"]);
    ("mystery", ["mystery"; "detective"; "whodunit"]);
    ("non-fiction", ["non-fiction"; "nonfiction"; "real story"]);
    ("history", ["history"; "historical"]);
    ("horror", ["horror"; "scary"; "ghost"]);
    ("biography", ["biography"; "life of"; "memoir"]);
    ("self-help", ["self-help"; "motivation"; "inspirational"]);
    ("young adult", ["young adult"; "ya"]);
    ("poetry", ["poetry"; "poems"]);
    ("philosophy", ["philosophy"; "thinking"; "ethics"]);
    ("comedy", ["comedy"; "funny"; "humor"]);
    ("drama", ["drama"]);
    ("historical fiction", ["historical fiction"; "period drama"]) ].

(** The inner loop: does some phrase of [keywords] occur in the text? *)
Fixpoint any_phrase (keywords : list string) (query_clean : string) : bool :=
  match keywords with
  | [] => false
  | phrase :: rest =>
      if contains phrase query_clean then true else any_phrase rest query_clean
  end.

(** The outer loop: the subject of the first entry that has such a phrase. *)
Fixpoint first_subject (table : list (string * list string))
    (query_clean : string) : option string :=
  match table with
  | [] => None
  | (subject, keywords) :: rest =>
      if any_phrase keywords query_clean then Some subject
      else first_subject rest query_clean
  end.

Definition query_clean_of (query : string) : string :=
  strip_punctuation (lower query).

Definition extract_subject_from_query (query : string) : M string :=
  let query_clean := query_clean_of query in
  match first_subject subject_keywords query_clean with
  | Some subject => ret subject
  | None => emit PrintWarnNoGenre ;;; ret "fiction"
  end.

(* ====================================================================== *)
(** ** Python values of a plan *)

(** What [ast.literal_eval] hands back for a plan: the literal values that a
    list of step dictionaries is made of.  Dictionary keys are strings, kept
    in insertion order, one binding per key. *)
Inductive pyval : Type :=
| PNone
| PBool (b : bool)
| PInt (z : Z)
| PStr (s : string)
| PList (l : list pyval)
| PDict (d : list (string * pyval)).

Fixpoint assoc {A} (key : string) (d : list (string * A)) : option A :=
  match d with
  | [] => None
  | (k, v) :: d' => if String.eqb k key then Some v else assoc key d'
  end.

(** [d[key] = v] on the bindings of a dictionary. *)
Fixpoint dict_set {A} (key : string) (v : A) (d : list (string * A))
  : list (string * A) :=
  match d with
  | [] => [(key, v)]
  | (k, w) :: d' =>
      if String.eqb k key then (k, v) :: d' else (k, w) :: dict_set key v d'
  end.

(** [obj[key]] with a string key: a dictionary looks the key up, a string or
    a list wants an integer index, the other values are not subscriptable. *)
Definition getitem (obj : pyval) (key : string) : result pyval :=
  match obj with
  | PDict d =>
      match assoc key d with
      | Some v => Ok v
      | None => Raise (KeyError key)
      end
  | PNone | PBool _ | PInt _ | PStr _ | PList _ => Raise TypeError
  end.

(** [obj.lower()]: only a string has the method. *)
Definition call_lower (obj : pyval) : result string :=
  match obj with
  | PStr s => Ok (lower s)
  | PNone | PBool _ | PInt _ | PList _ | PDict _ => Raise AttributeError
  end.

(** [l[i]] with Python's negative indices. *)
Definition list_getitem {A} (l : list A) (i : Z) : result A :=
  let n := Z.of_nat (List.length l) in
  let j := if i <? 0 then i + n else i in
  if (0 <=? j) && (j <? n)
  then match nth_error l (Z.to_nat j) with
       | Some x => Ok x
       | None => Raise IndexError
       end
  else Raise IndexError.

Definition get_default {A} (o : option A) (d : A) : A :=
  match o with
  | Some a => a
  | None => d
  end.

(** [state[key]] on a field of the state. *)
Definition field {A} (key : string) (o : option A) : result A :=
  match o with
  | Some a => Ok a
  | None => Raise (KeyError key)
  end.

(* ====================================================================== *)
(** ** Catalog records *)

(** The JSON of the catalog's answer; every member may be missing. *)
Record VolumeInfo : Type := {
  vi_title : option string;
  vi_authors : option (list string);
  vi_description : option string;
  vi_averageRating : option Q;
  vi_ratingsCount : option Z;
  vi_publishedDate : option string;
  vi_categories : option (list string);
  vi_infoLink : option string
}.

Record SearchInfo : Type := { si_textSnippet : option string }.

Record Item : Type := {
  volumeInfo : option VolumeInfo;
  searchInfo : option SearchInfo
}.

Record Volumes : Type := { items : option (list Item) }.

Inductive http_result : Type :=
| HttpFailure
| HttpJson (data : Volumes).

(** The empty dictionary [{}] that stands in for a missing member. *)
Definition no_volumeInfo : VolumeInfo :=
  {| vi_title := None; vi_authors := None; vi_description := None;
     vi_averageRating := None; vi_ratingsCount := None;
     vi_publishedDate := None; vi_categories := None; vi_infoLink := None |}.

Definition no_searchInfo : SearchInfo := {| si_textSnippet := None |}.

(** What [fetch_books] returns for one item. *)
Record BookRecord : Type := {
  br_title : string;
  br_authors : list string;
  br_description : string;
  br_averageRating : Q;
  br_ratingsCount : Z;
  br_publishedDate : string;
  br_categories : list string;
  br_snippet : string;
  br_infoLink : string
}.

(** An entry of [state["books"]]; [b.get("averageRating", 0)] reads the
    rating, so that member alone may be missing. *)
Record Book : Type := {
  b_title : string;
  b_authors : list string;
  b_averageRating : option Q
}.

(** An entry of [state["filtered_books"]]. *)
Record Pick : Type := {
  p_title : string;
  p_authors : list string
}.

(** [state["top_book"]]: the first pick, or the empty dictionary. *)
Inductive TopBook : Type :=
| EmptyRecord
| FirstPick (p : Pick).

(* ====================================================================== *)
(** ** The shared state *)

(** [BookState] is a [TypedDict] with [total=False]: every key may be
    missing. *)
Record BookState : Type := {
  user_query : option string;
  plan : option (list pyval);
  current_step : option Z;
  done : option bool;
  books : option (list Book);
  filtered_books : option (list Pick);
  top_book : option TopBook;
  presentation : option (list string)
}.

Definition set_plan (s : BookState) (v : list pyval) : BookState :=
  {| user_query := user_query s; plan := Some v;
     current_step := current_step s; done := done s; books := books s;
     filtered_books := filtered_books s; top_book := top_book s;
     presentation := presentation s |}.

Definition set_current_step (s : BookState) (v : Z) : BookState :=
  {| user_query := user_query s; plan := plan s;
     current_step := Some v; done := done s; books := books s;
     filtered_books := filtered_books s; top_book := top_book s;
     presentation := presentation s |}.

Definition set_done (s : BookState) (v : bool) : BookState :=
  {| user_query := user_query s; plan := plan s;
     current_step := current_step s; done := Some v; books := books s;
     filtered_books := filtered_books s; top_book := top_book s;
     presentation := presentation s |}.

Definition set_books (s : BookState) (v : list Book) : BookState :=
  {| user_query := user_query s; plan := plan s;
     current_step := current_step s; done := done s; books := Some v;
     filtered_books := filtered_books s; top_book := top_book s;
     presentation := presentation s |}.

Definition set_filtered_books (s : BookState) (v : list Pick) : BookState :=
  {| user_query := user_query s; plan := plan s;
     current_step := current_step s; done := done s; books := books s;
     filtered_books := Some v; top_book := top_book s;
     presentation := presentation s |}.

Definition set_top_book (s : BookState) (v : TopBook) : BookState :=
  {| user_query := user_query s; plan := plan s;
     current_step := current_step s; done := done s; books := books s;
     filtered_books := filtered_books s; top_book := Some v;
     presentation := presentation s |}.

Definition set_presentation (s : BookState) (v : list string) : BookState :=
  {| user_query := user_query s; plan := plan s;
     current_step := current_step s; done := done s; books := books s;
     filtered_books := filtered_books s; top_book := top_book s;
     presentation := Some v |}.

(** What [dynamic_tool_agent] returns beside the state. *)
Inductive retval : Type :=
| RetRecords (l : list BookRecord)
| RetBooks (l : list Book)
| RetTitles (l : list string)
| RetNone.

(* ====================================================================== *)
(** ** [sorted(xs, key=..., reverse=...)] *)

Definition Qltb (a b : Q) : bool := negb (Qle_bool b a).

Section Sorting.
Variable A : Type.
Variable key : A -> Q.

(** Stable insertion with [<] alone, as [list.sort] compares: [x], which
    stood before every element of [l], goes before the first element whose
    key is not smaller. *)
Fixpoint insert_asc (x : A) (l : list A) : list A :=
  match l with
  | [] => [x]
  | y :: l' =>
      if Qltb (key y) (key x) then y :: insert_asc x l' else x :: y :: l'
  end.

Definition sort_asc (l : list A) : list A := fold_right insert_asc [] l.

(** With [reverse=True] the list is reversed, sorted and reversed again,
    which keeps elements of equal key in their original order. *)
Definition sorted (reverse : bool) (l : list A) : list A :=
  if reverse then rev (sort_asc (rev l)) else sort_asc l.
End Sorting.

(* ====================================================================== *)
(** ** [re.search(r'\[.*\]', s, re.DOTALL)] *)

Definition open_bracket : ascii := ascii_of_nat 91.
Definition close_bracket : ascii := ascii_of_nat 93.

(** The greedy [.*\]] at one position: the longest prefix of [s] that ends
    with a closing bracket ([.] matches every character under DOTALL). *)
Fixpoint upto_last_close (s : string) : option string :=
  match s with
  | EmptyString => None
  | String c s' =>
      match upto_last_close s' with
      | Some r => Some (String c r)
      | None =>
          if Ascii.eqb c close_bracket then Some (String c EmptyString)
          else None
      end
  end.

(** The search tries each position from the left and keeps the first match:
    [match.group(0)], or [None] when the pattern matches nowhere. *)
Fixpoint search_bracketed (s : string) : option string :=
  match s with
  | EmptyString => None
  | String c s' =>
      if Ascii.eqb c open_bracket then
        match upto_last_close s' with
        | Some r => Some (String c r)
        | None => search_bracketed s'
        end
      else search_bracketed s'
  end.

(* ====================================================================== *)
(** ** The program *)

Definition nl : string := String (ascii_of_nat 10) EmptyString.
Definition dquote : string := String (ascii_of_nat 34) EmptyString.

Definition prompt_of (user_query : string) : string :=
  "You are an AI workflow planner." ++ nl ++
  "Given a user's request, break it down into an ordered list of steps." ++ nl ++
  "Each step should be a dictionary with a single 'task' key, and only include extra keys if absolutely required for that specific step." ++ nl ++
  "Do NOT add redundant references (like 'book': 'found_book') if there's clearly only one book or one main object in the workflow." ++ nl ++
  "Example:" ++ nl ++
  "[" ++ nl ++
  "  {'task': 'Query a book database or API for science fiction books.'}," ++ nl ++
  "  {'task': 'Filter the results to identify books with high ratings.'}," ++ nl ++
  "  {'task': 'Present the book with the highest overall score based on the ranking criteria as the suggested best science fiction book.'}" ++ nl ++
  "]" ++ nl ++
  "Output your response strictly as a Python list of dictionaries." ++ nl ++
  "User request: " ++ dquote ++ user_query ++ dquote ++ nl ++
  "Tasks:".

Section Program.
(** The injected model, [None] until [set_llm] ran: the [content] of the
    reply to a prompt. *)
Variable llm1 : option (string -> string).
(** [ast.literal_eval] on a string. *)
Variable literal_eval : string -> result pyval.
(** The catalog: what [requests.get(url, params).json()] gives for a subject
    and a [maxResults], or a failure of the request. *)
Variable catalog : string -> Z -> http_result.

(** *** Planning Agent *)
Definition plan_agent (user_query : string) : M (list pyval) :=
  match llm1 with
  | None => raise ValueError
  | Some invoke =>
      let prompt := prompt_of user_query in
      let plan_str := strip (invoke prompt) in
      let plan_str :=
        match search_bracketed plan_str with
        | Some group0 => group0
        | None => plan_str
        end in
      match literal_eval plan_str with
      | Ok (PList plan) => ret plan
      | Ok _ => emit (PrintParseFailure plan_str) ;;; raise AssertionError
      | Raise e => emit (PrintParseFailure plan_str) ;;; raise e
      end
  end.

(** *** Book Data Fetcher *)
Definition book_record (book : Item) : BookRecord :=
  let info := get_default (volumeInfo book) no_volumeInfo in
  let snippet :=
    get_default (si_textSnippet (get_default (searchInfo book) no_searchInfo))
      "No review snippet found." in
  {| br_title := get_default (vi_title info) "N/A";
     br_authors := get_default (vi_authors info) ["N/A"];
     br_description := get_default (vi_description info) "No summary found.";
     br_averageRating := get_default (vi_averageRating info) 0%Q;
     br_ratingsCount := get_default (vi_ratingsCount info) 0;
     br_publishedDate := get_default (vi_publishedDate info) "";
     br_categories := get_default (vi_categories info) [];
     br_snippet := snippet;
     br_infoLink := get_default (vi_infoLink info) "" |}.

Definition fetch_books (subject : string) (max_results : Z)
  : M (list BookRecord) :=
  emit (HttpGet subject max_results) ;;;
  match catalog subject max_results with
  | HttpFailure => raise NetworkError
  | HttpJson data =>
      let items := get_default (items data) [] in
      match items with
      | [] => ret []
      | _ :: _ => ret (map book_record items)
      end
  end.

(** *** Tool Executor *)
Definition dynamic_tool_agent (task_dict : pyval) (state : BookState)
  : M (retval * BookState) :=
  task_value <- lift (getitem task_dict "task") ;;
  task <- lift (call_lower task_value) ;;
  let user_query := get_default (user_query state) "" in
  subject <- extract_subject_from_query user_query ;;
  emit (PrintDebugSubject subject) ;;;
  if (contains "query" task || contains "search" task
      || contains "find books" task)%bool then
    books <- fetch_books subject 10 ;;
    let state := set_books state
      (map (fun b => {| b_title := br_title b;
                        b_authors := br_authors b;
                        b_averageRating := Some (br_averageRating b) |})
           books) in
    ret (RetRecords books, state)
  else if (contains "filter" task || contains "rating" task
           || contains "top rated" task)%bool then
    let books := get_default (books state) [] in
    let filtered :=
      sorted (fun b => get_default (b_averageRating b) 0%Q) true books in
    let state := set_filtered_books state
      (map (fun b => {| p_title := b_title b; p_authors := b_authors b |})
           filtered) in
    ret (RetBooks filtered, state)
  else if (contains "present" task || contains "suggest" task
           || contains "recommend" task)%bool then
    let filtered := get_default (filtered_books state) [] in
    let state := set_presentation state
      match filtered with
      | _ :: _ => map p_title (firstn 5 filtered)
      | [] => []
      end in
    let state := set_top_book state
      match filtered with
      | first :: _ => FirstPick first
      | [] => EmptyRecord
      end in
    ret (RetTitles (get_default (presentation state) []), state)
  else ret (RetNone, state).

(** *** Node wrappers *)
Definition plan_node (state : BookState) : M BookState :=
  plan <- plan_agent (get_default (user_query state) "") ;;
  ret (set_done (set_current_step (set_plan state plan) 0) false).

Definition tool_node (state : BookState) : M BookState :=
  plan <- lift (field "plan" (plan state)) ;;
  step <- lift (field "current_step" (current_step state)) ;;
  if step >=? Z.of_nat (List.length plan) then
    ret (set_done state true)
  else
    task <- lift (list_getitem plan step) ;;
    r <- dynamic_tool_agent task state ;;
    let updated_state := snd r in
    let updated_state := set_current_step updated_state (step + 1) in
    let updated_state :=
      set_done updated_state
        (get_default (current_step updated_state) 0
         >=? Z.of_nat (List.length plan)) in
    ret updated_state.

(** *** The compiled graph

    Entry point [planner], an edge from [planner] to [executor], and from
    [executor] the conditional edge [END if s.get("done") else "executor"].
    The driver yields the state after each node; it gives up with an
    exception once [recursion_limit] executor rounds have not reached
    [END]. *)
Definition truthy (o : option bool) : bool := get_default o false.

Fixpoint executor_stream (recursion_limit : nat) (state : BookState)
  : M (list BookState) :=
  match recursion_limit with
  | O => raise GraphRecursionError
  | S limit =>
      s <- tool_node state ;;
      if truthy (done s) then ret [s]
      else rest <- executor_stream limit s ;; ret (s :: rest)
  end.

Definition app_stream (recursion_limit : nat) (initial : BookState)
  : M (list BookState) :=
  s <- plan_node initial ;;
  rest <- executor_stream recursion_limit s ;;
  ret (s :: rest).

Definition app_invoke (recursion_limit : nat) (initial : BookState)
  : M BookState :=
  states <- app_stream recursion_limit initial ;;
  ret (last states initial).
End Program.

(** The number of calls of [dynamic_tool_agent] that got as far as its
    debug line, which every call that returns prints exactly once. *)
Definition is_dispatch (ev : event) : bool :=
  match ev with
  | PrintDebugSubject _ => true
  | PrintWarnNoGenre | PrintParseFailure _ | HttpGet _ _ => false
  end.

Definition dispatches (log : list event) : nat :=
  List.length (filter is_dispatch log).

(* ====================================================================== *)
(** ** The panel of [app1.py] *)

Inductive panel : Type :=
| Write (titles : list string)   (* st.write(final_state["presentation"]) *)
| Warning (message : string)     (* st.warning(...) *)
| Error (e : exn).               (* st.error(...) in the handler *)

Definition initial_state (user_query : string) : BookState :=
  {| user_query := Some user_query; plan := None; current_step := None;
     done := None; books := None; filtered_books := None; top_book := None;
     presentation := None |}.

(** [if "presentation" in final_state: ... else: st.warning(...)] *)
Definition show (final_state : BookState) : panel :=
  match presentation final_state with
  | Some titles => Write titles
  | None => Warning "No recommendations found."
  end.

(** The button: run the graph on the query and fill the panel; an exception
    of the run ends in the handler. *)
Definition generate_recommendation
    (llm1 : option (string -> string))
    (literal_eval : string -> result pyval)
    (catalog : string -> Z -> http_result)
    (recursion_limit : nat) (user_query : string) : panel :=
  match outcome (app_invoke llm1 literal_eval catalog recursion_limit
                   (initial_state user_query)) with
  | Ok final_state => show final_state
  | Raise e => Error e
  end.

(* ====================================================================== *)
(** ** The dispatcher as the design document words it *)

Inductive behaviour : Type := FETCH | FILTER | PRESENT | NOOP.

Definition mentions (keywords : list string) (task : string) : bool :=
  existsb (fun keyword => contains keyword task) keywords.

(** The first keyword group, in the fixed priority order, that the lowercased
    task text mentions. *)
Definition classify (task : string) : behaviour :=
  if mentions ["query"; "search"; "find books"] task then FETCH
  else if mentions ["filter"; "rating"; "top rated"] task then FILTER
  else if mentions ["present"; "suggest"; "recommend"] task then PRESENT
  else NOOP.

(** A step the dispatcher can read: a mapping whose ["task"] is text. *)
Definition task_text (step : pyval) : option string :=
  match getitem step "task" with
  | Ok (PStr t) => Some t
  | _ => None
  end.

(* ====================================================================== *)
(** ** A reader of Python literals

    An executable stand-in for [ast.literal_eval] on the literals a plan is
    written with: lists, dictionaries with string keys, strings in single or
    double quotes without escapes, unsigned integers, [None], [True] and
    [False], with white space between tokens and an optional comma before a
    closing bracket.  Anything else is refused. *)
Module Literal.

Definition open_brace : ascii := ascii_of_nat 123.
Definition close_brace : ascii := ascii_of_nat 125.
Definition comma : ascii := ascii_of_nat 44.
Definition colon : ascii := ascii_of_nat 58.
Definition quote : ascii := ascii_of_nat 39.
Definition double_quote : ascii := ascii_of_nat 34.
Definition backslash : ascii := ascii_of_nat 92.
Definition line_feed : ascii := ascii_of_nat 10.

Fixpoint drop (n : nat) (s : string) : string :=
  match n, s with
  | O, _ => s
  | S _, EmptyString => EmptyString
  | S n', String _ s' => drop n' s'
  end.

(** The text after [word], when the input starts with it. *)
Definition after (word s : string) : option string :=
  if String.prefix word s then Some (drop (String.length word) s) else None.

(** The body of a string up to the closing quote [q], and the rest. *)
Fixpoint read_quoted (q : ascii) (s : string) : option (string * string) :=
  match s with
  | EmptyString => None
  | String c s' =>
      if Ascii.eqb c q then Some (EmptyString, s')
      else if (Ascii.eqb c backslash || Ascii.eqb c line_feed)%bool then None
      else match read_quoted q s' with
           | Some (body, rest) => Some (String c body, rest)
           | None => None
           end
  end.

Fixpoint read_digits (acc : Z) (s : string) : Z * string :=
  match s with
  | EmptyString => (acc, s)
  | String c s' =>
      if is_digit c
      then read_digits (10 * acc + Z.of_nat (code c - 48)) s'
      else (acc, s)
  end.

(** A number or a keyword ends where no word character or dot follows. *)
Definition token_ends (s : string) : bool :=
  match s with
  | EmptyString => true
  | String c _ => negb (is_word c || Ascii.eqb c (ascii_of_nat 46))
  end.

Definition keyword (word : string) (v : pyval) (s : string)
  : option (pyval * string) :=
  match after word s with
  | Some rest => if token_ends rest then Some (v, rest) else None
  | None => None
  end.

Definition atom (s : string) : option (pyval * string) :=
  match s with
  | EmptyString => None
  | String c rest =>
      if (Ascii.eqb c quote || Ascii.eqb c double_quote)%bool then
        match read_quoted c rest with
        | Some (body, r) => Some (PStr body, r)
        | None => None
        end
      else if is_digit c then
        let (n, r) := read_digits 0 s in
        if token_ends r then Some (PInt n, r) else None
      else
        match keyword "None" PNone s with
        | Some r => Some r
        | None =>
            match keyword "True" (PBool true) s with
            | Some r => Some r
            | None => keyword "False" (PBool false) s
            end
        end
  end.

(** Later bindings of a key replace earlier ones, as in a dict display. *)
Definition dict_of (pairs : list (string * pyval)) : list (string * pyval) :=
  fold_left (fun d kv => dict_set (fst kv) (snd kv) d) pairs [].

Fixpoint parse_value (fuel : nat) (s : string) : option (pyval * string) :=
  match fuel with
  | O => None
  | S fuel' =>
      match lstrip s with
      | EmptyString => None
      | String c rest =>
          if Ascii.eqb c open_bracket then
            match parse_items fuel' rest with
            | Some (vs, r) => Some (PList vs, r)
            | None => None
            end
          else if Ascii.eqb c open_brace then
            match parse_pairs fuel' rest with
            | Some (kvs, r) => Some (PDict (dict_of kvs), r)
            | None => None
            end
          else atom (String c rest)
      end
  end
with parse_items (fuel : nat) (s : string) : option (list pyval * string) :=
  match fuel with
  | O => None
  | S fuel' =>
      match lstrip s with
      | EmptyString => None
      | String c rest =>
          if Ascii.eqb c close_bracket then Some ([], rest)
          else
            match parse_value fuel' (String c rest) with
            | None => None
            | Some (v, r) =>
                match lstrip r with
                | EmptyString => None
                | String d r' =>
                    if Ascii.eqb d comma then
                      match parse_items fuel' r' with
                      | Some (vs, r'') => Some (v :: vs, r'')
                      | None => None
                      end
                    else if Ascii.eqb d close_bracket then Some ([v], r')
                    else None
                end
            end
      end
  end
with parse_pairs (fuel : nat) (s : string)
  : option (list (string * pyval) * string) :=
  match fuel with
  | O => None
  | S fuel' =>
      match lstrip s with
      | EmptyString => None
      | String c rest =>
          if Ascii.eqb c close_brace then Some ([], rest)
          else
            match parse_value fuel' (String c rest) with
            | Some (PStr k, r) =>
                match lstrip r with
                | EmptyString => None
                | String d r' =>
                    if Ascii.eqb d colon then
                      match parse_value fuel' r' with
                      | None => None
                      | Some (v, r1) =>
                          match lstrip r1 with
                          | EmptyString => None
                          | String e r2 =>
                              if Ascii.eqb e comma then
                                match parse_pairs fuel' r2 with
                                | Some (kvs, r3) => Some ((k, v) :: kvs, r3)
                                | None => None
                                end
                              else if Ascii.eqb e close_brace
                                   then Some ([(k, v)], r2)
                              else None
                          end
                      end
                    else None
                end
            | _ => None
            end
      end
  end.

Definition literal_eval (s : string) : result pyval :=
  match parse_value (S (S (2 * String.length s))) s with
  | Some (v, rest) =>
      match lstrip rest with
      | EmptyString => Ok v
      | String _ _ => Raise LiteralError
      end
  | None => Raise LiteralError
  end.

End Literal.

(** The worked example of the prompt, as a model might answer it. *)
Definition example_reply : string :=
  "[" ++ nl ++
  "  {'task': 'Query a book database or API for science fiction books.'}," ++ nl ++
  "  {'task': 'Filter the results to identify books with high ratings.'}," ++ nl ++
  "  {'task': 'Present the book with the highest overall score based on the ranking criteria as the suggested best science fiction book.'}" ++ nl ++
  "]".

Definition example_plan : list pyval :=
  [ PDict [("task", PStr "Query a book database or API for science fiction books.")];
    PDict [("task", PStr "Filter the results to identify books with high ratings.")];
    PDict [("task", PStr "Present the book with the highest overall score based on the ranking criteria as the suggested best science fiction book.")] ].

(** What the Genre Extractor hands back and what it prints, as two pure
    readings of [extract_subject_from_query]. *)
Definition subject_of (query : string) : string :=
  get_default (first_subject subject_keywords (query_clean_of query)) "fiction".

Definition warning_of (query : string) : list event :=
  match first_subject subject_keywords (query_clean_of query) with
  | Some _ => []
  | None => [PrintWarnNoGenre]
  end.

(** The projections the FETCH and FILTER branches store. *)
Definition to_book (b : BookRecord) : Book :=
  {| b_title := br_title b; b_authors := br_authors b;
     b_averageRating := Some (br_averageRating b) |}.

Definition to_pick (b : Book) : Pick :=
  {| p_title := b_title b; p_authors := b_authors b |}.

Definition rating (b : Book) : Q := get_default (b_averageRating b) 0%Q.

Unset Implicit Arguments.

(** What the FETCH branch gets for a subject: the records of the answer, or
    the failure of the request. *)
Definition fetched (catalog : string -> Z -> http_result) (subject : string)
  : result (list BookRecord) :=
  match catalog subject 10 with
  | HttpFailure => Raise NetworkError
  | HttpJson data => Ok (map book_record (get_default (items data) []))
  end.

(** The text [plan_agent] hands to [ast.literal_eval] for a reply. *)
Definition plan_text (reply : string) : string :=
  match search_bracketed (strip reply) with
  | Some group0 => group0
  | None => strip reply
  end.

(* ====================================================================== *)
(** ** Vocabulary of the statements *)

(** The character [c] occurs in the text. *)
Fixpoint occurs (c : ascii) (s : string) : Prop :=
  match s with
  | EmptyString => False
  | String d s' => d = c \/ occurs c s'
  end.

(** The text has an opening bracket with a closing bracket after it: what
    the pattern [\[.*\]] needs in order to match somewhere. *)
Definition has_bracketed (s : string) : Prop :=
  exists a b c,
    s = (a ++ String open_bracket (b ++ String close_bracket c))%string.

(** [r] is the end of [s]. *)
Definition suffix (r s : string) : Prop := 
  exists p, s = (p ++ r)%string.

(** A step the dispatcher can read. *)
Definition readable (step : pyval) : Prop := exists t, task_text step = Some t.

(** A catalog that answers every request of the dispatcher. *)
Definition online (catalog : string -> Z -> http_result) : Prop :=
  forall subject, catalog subject 10 <> HttpFailure.

Definition step_index (s : BookState) : Z := get_default (current_step s) 0.

(** What holds of the states the executor yields from step [from] on. *)
Definition in_run (p : list pyval) (from : Z) (s : BookState) : Prop :=
  plan s = Some p
  /\ exists j, current_step s = Some j
               /\ from <= j <= Z.of_nat (List.length p)
               /\ done s = Some (j >=? Z.of_nat (List.length p)).

(** The subjects the extractor can hand back from the table. *)
Definition live_subjects : list string :=
  [ "science fiction"; "fantasy"; "thriller"; "romance"; "mystery";
    "non-fiction"; "history"; "horror"; "biography"; "self-help";
    "young adult"; "poetry"; "philosophy"; "comedy"; "drama" ].

(** The number of catalog requests in a log. *)
Definition is_request (ev : event) : bool :=
  match ev with
  | HttpGet _ _ => true
  | PrintDebugSubject _ | PrintWarnNoGenre | PrintParseFailure _ => false
  end.

Definition requests (log : list event) : nat :=
  List.length (filter is_request log).

(** The requests of a log all ask for [subject], ten results at most. *)
Definition asks_only_for (subject : string) (log : list event) : Prop :=
  Forall (fun ev => is_request ev = true -> ev = HttpGet subject 10) log.

(** What [tool_node] writes after a dispatch at step [i] of a plan of [n]
    steps. *)
Definition advance (i n : Z) (s : BookState) : BookState :=
  set_done (set_current_step s (i + 1)) (i + 1 >=? n).

(** The plan run as a plain loop: each step dispatched in turn from the state
    the step before it left, with the bookkeeping of [tool_node] after each. *)
Fixpoint run_steps (catalog : string -> Z -> http_result)
    (steps : list pyval) (i n : Z) (state : BookState) : M BookState :=
  match steps with
  | [] => ret state
  | step :: rest =>
      r <- dynamic_tool_agent catalog step state ;;
      run_steps catalog rest (i + 1) n (advance i n (snd r))
  end.

(** The keyword group of a step, when its task is text. *)
Definition group_of (step : pyval) : option behaviour :=
  option_map (fun t => classify (lower t)) (task_text step).

Definition is_fetch_step (step : pyval) : bool :=
  match group_of step with
  | Some FETCH => true
  | _ => false
  end.

Definition is_filter_step (step : pyval) : bool :=
  match group_of step with
  | Some FILTER => true
  | _ => false
  end.

Definition is_present_step (step : pyval) : bool :=
  match group_of step with
  | Some PRESENT => true
  | _ => false
  end.

(** The rating and the title the code reads off an item of the answer. *)
Definition item_rating (it : Item) : Q :=
  get_default (vi_averageRating (get_default (volumeInfo it) no_volumeInfo)) 0%Q.

Definition item_title (it : Item) : string :=
  get_default (vi_title (get_default (volumeInfo it) no_volumeInfo)) "N/A".

Definition item_authors (it : Item) : list string :=
  get_default (vi_authors (get_default (volumeInfo it) no_volumeInfo)) ["N/A"].

(* ====================================================================== *)
(** ** Sample data for the worked cases *)

Definition volume (title : string) (stars : option Q) : Item :=
  {| volumeInfo :=
       Some {| vi_title := Some title; vi_authors := None;
               vi_description := None; vi_averageRating := stars;
               vi_ratingsCount := None; vi_publishedDate := None;
               vi_categories := None; vi_infoLink := None |};
     searchInfo := None |}.

(** An item with nothing in it: [{}]. *)
Definition bare_item : Item := {| volumeInfo := None; searchInfo := None |}.

Definition answering (found : option (list Item)) : string -> Z -> http_result :=
  fun _ _ => HttpJson {| items := found |}.

Definition offline : string -> Z -> http_result := fun _ _ => HttpFailure.

Definition three_volumes : list Item :=
  [volume "A" (Some 4%Q); volume "B" (Some 5%Q); volume "C" (Some 4%Q)].

Definition eleven_volumes : list Item := repeat bare_item 11.

Definition book (title : string) (stars : Q) : Book :=
  {| b_title := title; b_authors := ["N/A"]; b_averageRating := Some stars |}.

Definition pick (title : string) : Pick :=
  {| p_title := title; p_authors := ["N/A"] |}.

Definition shelf : list Book := [book "A" 4; book "B" 5; book "C" 4].

Definition seven_picks : list Pick :=
  [pick "1"; pick "2"; pick "3"; pick "4"; pick "5"; pick "6"; pick "7"].

Definition step_of (task : string) : pyval := PDict [("task", PStr task)].

Definition refusal : string := "I am sorry, I cannot plan that.".

Definition list_then_reference : string :=
  "[{'task': 'search'}] as listed in [1]".

Definition list_in_prose : string :=
  "  Here is the plan: [{'task': 'search'}] Enjoy.  ".

Definition nested_reply : string :=
  "Plan: [{'task': 'search', 'shelves': [1, 2]}, {'task': 'recommend'}] (done)".

Definition two_fetch_reply : string :=
  "[{'task': 'search'}, {'task': 'query again'}, {'task': 'filter'}]".


Definition misordered_reply : string :=
  "[{'task': 'search'}, {'task': 'recommend one'}, {'task': 'filter'}]".

Definition shelved : BookState := set_books (initial_state "q") shelf.

Definition shelved_filtered : BookState :=
  set_filtered_books shelved [pick "B"; pick "A"; pick "C"].

(* ====================================================================== *)
(** * Properties *)

(** ** The monad *)

Lemma bind_ok {A B} (l : list event) (a : A) (f : A -> M B) :
  bind (l, Ok a) f = (l ++ fst (f a), snd (f a)).
Proof. unfold bind. destruct (f a). reflexivity. Qed.

Lemma bind_raise {A B} (l : list event) (e : exn) (f : A -> M B) :
  bind (l, Raise e) f = (l, Raise e).
Proof. reflexivity. Qed.

Lemma extract_subject_total (query : string) :
  extract_subject_from_query query = (warning_of query, Ok (subject_of query)).
Proof.
  unfold extract_subject_from_query, warning_of, subject_of.
  destruct (first_subject subject_keywords (query_clean_of query)); reflexivity.
Qed.

Lemma dispatches_app (l1 l2 : list event) :
  dispatches (l1 ++ l2) = (dispatches l1 + dispatches l2)%nat.
Proof. unfold dispatches. rewrite filter_app, length_app. reflexivity. Qed.

Lemma dispatches_warning (query : string) : dispatches (warning_of query) = 0%nat.
Proof. unfold warning_of. destruct (first_subject _ _); reflexivity. Qed.

(** ** Genre Extractor *)

(** The label is that of the first table entry one of whose phrases occurs in
    the cleaned query, and ["fiction"] when there is none. *)
Lemma first_subject_find (table : list (string * list string)) (text : string) :
  first_subject table text
  = option_map fst
      (find (fun entry => existsb (fun phrase => contains phrase text) (snd entry))
         table).
Proof.
  induction table as [|[subject keywords] rest IH]; simpl; [reflexivity|].
  assert (E : any_phrase keywords text
              = existsb (fun phrase => contains phrase text) keywords).
  { clear. induction keywords as [|k ks IHk]; simpl; [reflexivity|].
    rewrite IHk. destruct (contains k text); reflexivity. }
  rewrite E. destruct (existsb _ keywords); [reflexivity | exact IH].
Qed.

Lemma extract_subject_is_first_match (query : string) :
  outcome (extract_subject_from_query query)
  = Ok match find (fun entry =>
                     existsb (fun phrase => contains phrase (query_clean_of query))
                       (snd entry))
               subject_keywords with
       | Some entry => fst entry
       | None => "fiction"
       end.
Proof.
  rewrite extract_subject_total. unfold subject_of, outcome, snd.
  rewrite first_subject_find. destruct (find _ subject_keywords); reflexivity.
Qed.

Example extract_scary_ghost :
  extract_subject_from_query "I want a scary ghost story" = ([], Ok "horror").
Proof. reflexivity. Qed.

Example extract_best_science_fiction :
  extract_subject_from_query "Suggest the best science fiction book"
  = ([], Ok "science fiction").
Proof. reflexivity. Qed.

Example extract_sci_fi_spaced :
  extract_subject_from_query "Any good sci fi?" = ([], Ok "science fiction").
Proof. reflexivity. Qed.

Lemma prefix_occurs (c : ascii) (p s : string) :
  String.prefix p s = true -> occurs c p -> occurs c s.
Proof.
  revert s. induction p as [|d p IH]; intros s Hp Hc; [destruct Hc|].
  destruct s as [|e s]; simpl in Hp; [discriminate|].
  destruct (Ascii.ascii_dec d e) as [->|]; [|discriminate].
  destruct Hc as [->|Hc]; [left; reflexivity | right; eauto].
Qed.

Lemma contains_cons (needle : string) (d : ascii) (hay : string) :
  contains needle (String d hay)
  = if String.prefix needle (String d hay) then true else contains needle hay.
Proof. reflexivity. Qed.

Lemma contains_empty (needle : string) :
  contains needle EmptyString = String.prefix needle EmptyString.
Proof.
  change (contains needle EmptyString)
    with (if String.prefix needle EmptyString then true else false).
  destruct (String.prefix needle EmptyString); reflexivity.
Qed.

Lemma contains_occurs (c : ascii) (needle hay : string) :
  contains needle hay = true -> occurs c needle -> occurs c hay.
Proof.
  induction hay as [|d hay IH]; intros H Hc.
  - rewrite contains_empty in H. eapply prefix_occurs; eauto.
  - rewrite contains_cons in H.
    destruct (String.prefix needle (String d hay)) eqn:E.
    + eapply prefix_occurs; eauto.
    + right. auto.
Qed.

Lemma strip_punctuation_keeps (c : ascii) (s : string) :
  occurs c (strip_punctuation s) -> (is_word c || is_space c)%bool = true.
Proof.
  induction s as [|d s IH]; simpl; [tauto|].
  destruct (is_word d || is_space d)%bool eqn:E; simpl; [|exact IH].
  intros [->|H]; auto.
Qed.

(** A phrase with a character that the cleaning deletes, such as the hyphen,
    occurs in no cleaned query. *)
Lemma punctuated_phrase_never_matches (c : ascii) (phrase query : string) :
  occurs c phrase -> (is_word c || is_space c)%bool = false ->
  contains phrase (query_clean_of query) = false.
Proof.
  intros Hc Hp. destruct (contains phrase (query_clean_of query)) eqn:E; auto.
  pose proof (strip_punctuation_keeps c _ (contains_occurs c _ _ E Hc)).
  congruence.
Qed.

(** C4: the table lists ["sci-fi"] for science fiction and ["self-help"] for
    self-help, yet a request that contains either phrase is answered with the
    default label: the hyphen is removed from the query before the phrases are
    looked for, so these two phrases match no query at all. *)
Theorem hyphenated_genre_falls_back_to_fiction :
  contains "sci-fi" "I love sci-fi books" = true
  /\ first_subject subject_keywords "sci-fi" = Some "science fiction"
  /\ outcome (extract_subject_from_query "I love sci-fi books") = Ok "fiction"
  /\ outcome (extract_subject_from_query "sci-fi") = Ok "fiction"
  /\ outcome (extract_subject_from_query "a self-help classic") = Ok "fiction"
  /\ (forall query, contains "sci-fi" (query_clean_of query) = false)
  /\ (forall query, contains "self-help" (query_clean_of query) = false).
Proof.
  repeat split; try reflexivity; intro query.
  - apply punctuated_phrase_never_matches with (c := "-"%char);
      [simpl; tauto | reflexivity].
  - apply punctuated_phrase_never_matches with (c := "-"%char);
      [simpl; tauto | reflexivity].
Qed.

(** ** Sorting *)

Lemma Qltb_true (a b : Q) : Qltb a b = true <-> (a < b)%Q.
Proof.
  unfold Qltb. rewrite negb_true_iff. split; intro H.
  - apply Qnot_le_lt. intro Hle. apply Qle_bool_iff in Hle. congruence.
  - destruct (Qle_bool b a) eqn:E; [|reflexivity].
    apply Qle_bool_iff in E. exfalso. exact (Qlt_not_le _ _ H E).
Qed.

Lemma Qltb_false (a b : Q) : Qltb a b = false <-> (b <= a)%Q.
Proof.
  unfold Qltb. rewrite negb_false_iff. apply Qle_bool_iff.
Qed.

Lemma StronglySorted_app {A} (R : A -> A -> Prop) (l1 l2 : list A) :
  StronglySorted R l1 -> StronglySorted R l2 ->
  (forall x y, In x l1 -> In y l2 -> R x y) ->
  StronglySorted R (l1 ++ l2).
Proof.
  induction l1 as [|a l1 IH]; simpl; intros H1 H2 H; [exact H2|].
  inversion H1; subst. constructor.
  - apply IH; auto.
  - apply Forall_app. split; [assumption|].
    apply Forall_forall. intros y Hy. apply H; auto.
Qed.

Lemma StronglySorted_rev {A} (R : A -> A -> Prop) (l : list A) :
  StronglySorted R l -> StronglySorted (fun a b => R b a) (rev l).
Proof.
  induction 1 as [|a l Hl IH Ha]; simpl; [constructor|].
  apply StronglySorted_app; [exact IH | repeat constructor |].
  intros x y Hx [<-|[]]. apply in_rev in Hx.
  rewrite Forall_forall in Ha. auto.
Qed.

Section SortingFacts.
Variable A : Type.
Variable key : A -> Q.

Let same_key (r : Q) (a : A) : bool := Qeq_bool (key a) r.

Lemma insert_asc_perm (x : A) (l : list A) :
  Permutation (x :: l) (insert_asc key x l).
Proof.
  induction l as [|y l IH]; simpl; [reflexivity|].
  destruct (Qltb (key y) (key x)); [|reflexivity].
  rewrite perm_swap. constructor. exact IH.
Qed.

Lemma sort_asc_perm (l : list A) : Permutation l (sort_asc key l).
Proof.
  induction l as [|x l IH]; simpl; [reflexivity|].
  rewrite <- insert_asc_perm. constructor. exact IH.
Qed.

Lemma insert_asc_sorted (x : A) (l : list A) :
  StronglySorted (fun a b => (key a <= key b)%Q) l ->
  StronglySorted (fun a b => (key a <= key b)%Q) (insert_asc key x l).
Proof.
  induction 1 as [|y l Hl IH Hy]; simpl; [repeat constructor|].
  destruct (Qltb (key y) (key x)) eqn:E.
  - constructor; [exact IH|].
    apply (Permutation_Forall (insert_asc_perm x l)).
    constructor; [|exact Hy].
    apply Qltb_true in E. apply Qlt_le_weak. exact E.
  - apply Qltb_false in E.
    constructor; [constructor; assumption|].
    constructor; [exact E|].
    eapply Forall_impl; [|exact Hy].
    intros a Ha. simpl in Ha. eapply Qle_trans; eauto.
Qed.

Lemma sort_asc_sorted (l : list A) :
  StronglySorted (fun a b => (key a <= key b)%Q) (sort_asc key l).
Proof.
  induction l as [|x l IH]; simpl; [constructor|].
  apply insert_asc_sorted. exact IH.
Qed.

(** Insertion never moves [x] past an element of the same key. *)
Lemma insert_asc_stable (r : Q) (x : A) (l : list A) :
  filter (same_key r) (insert_asc key x l) = filter (same_key r) (x :: l).
Proof.
  induction l as [|y l IH]; [reflexivity|].
  simpl insert_asc. destruct (Qltb (key y) (key x)) eqn:E; [|reflexivity].
  simpl. simpl in IH. rewrite IH.
  destruct (same_key r y) eqn:Ey, (same_key r x) eqn:Ex; try reflexivity.
  exfalso. unfold same_key in Ey, Ex.
  apply Qeq_bool_iff in Ey, Ex. apply Qltb_true in E.
  rewrite Ey, Ex in E. exact (Qlt_irrefl _ E).
Qed.

Lemma sort_asc_stable (r : Q) (l : list A) :
  filter (same_key r) (sort_asc key l) = filter (same_key r) l.
Proof.
  induction l as [|x l IH]; [reflexivity|].
  simpl sort_asc. rewrite insert_asc_stable. simpl. rewrite IH. reflexivity.
Qed.

(** [sorted(l, key=key, reverse=True)]: a permutation of [l], keys never
    increasing, and the elements of any one key in their order in [l]. *)
Lemma sorted_reverse_spec (l : list A) :
  Permutation l (sorted key true l)
  /\ StronglySorted (fun a b => (key b <= key a)%Q) (sorted key true l)
  /\ forall r, filter (fun a => Qeq_bool (key a) r) (sorted key true l)
               = filter (fun a => Qeq_bool (key a) r) l.
Proof.
  unfold sorted. repeat split.
  - rewrite <- Permutation_rev. rewrite <- sort_asc_perm.
    apply Permutation_rev.
  - apply (StronglySorted_rev (fun a b => (key a <= key b)%Q)).
    apply sort_asc_sorted.
  - intro r. fold (same_key r).
    rewrite filter_rev, sort_asc_stable, <- filter_rev, rev_involutive.
    reflexivity.
Qed.
End SortingFacts.

(** ** Step Dispatcher *)

Lemma classify_as_coded (task : string) :
  classify task =
  if (contains "query" task || contains "search" task
      || contains "find books" task)%bool then FETCH
  else if (contains "filter" task || contains "rating" task
           || contains "top rated" task)%bool then FILTER
  else if (contains "present" task || contains "suggest" task
           || contains "recommend" task)%bool then PRESENT
  else NOOP.
Proof.
  unfold classify, mentions. cbn [existsb].
  rewrite !orb_false_r, !orb_assoc. reflexivity.
Qed.

Lemma task_text_getitem (step : pyval) (t : string) :
  task_text step = Some t -> getitem step "task" = Ok (PStr t).
Proof.
  unfold task_text. destruct (getitem step "task") as [[]|]; congruence.
Qed.

Section Dispatcher.
Variable catalog : string -> Z -> http_result.

Lemma fetch_books_fetched (subject : string) :
  fetch_books catalog subject 10
  = ([HttpGet subject 10], fetched catalog subject).
Proof.
  unfold fetch_books, fetched. cbn.
  destruct (catalog subject 10) as [|data]; [reflexivity|].
  destruct (get_default (items data) []); reflexivity.
Qed.

(** The dispatcher on a readable step, branch by branch. *)
Lemma dispatch_equation (step : pyval) (t : string) (state : BookState) :
  task_text step = Some t ->
  let query := get_default (user_query state) "" in
  let head := warning_of query ++ [PrintDebugSubject (subject_of query)] in
  dynamic_tool_agent catalog step state =
  match classify (lower t) with
  | FETCH =>
      (head ++ [HttpGet (subject_of query) 10],
       match fetched catalog (subject_of query) with
       | Ok records =>
           Ok (RetRecords records, set_books state (map to_book records))
       | Raise e => Raise e
       end)
  | FILTER =>
      let filtered := sorted rating true (get_default (books state) []) in
      (head,
       Ok (RetBooks filtered,
           set_filtered_books state (map to_pick filtered)))
  | PRESENT =>
      let filtered := get_default (filtered_books state) [] in
      let titles := map p_title (firstn 5 filtered) in
      (head,
       Ok (RetTitles titles,
           set_top_book (set_presentation state titles)
             match filtered with
             | first :: _ => FirstPick first
             | [] => EmptyRecord
             end))
  | NOOP => (head, Ok (RetNone, state))
  end.
Proof.
  intros Ht query head. apply task_text_getitem in Ht.
  unfold dynamic_tool_agent. rewrite Ht. unfold lift.
  rewrite bind_ok. cbn [call_lower]. rewrite bind_ok.
  rewrite extract_subject_total. fold query. rewrite bind_ok.
  unfold emit at 1. rewrite bind_ok. cbn [fst snd app].
  rewrite classify_as_coded.
  destruct (contains "query" (lower t) || contains "search" (lower t)
            || contains "find books" (lower t))%bool.
  { rewrite fetch_books_fetched. unfold emit. rewrite !bind_ok.
    cbn [fst snd]. subst head. rewrite <- app_assoc.
    destruct (fetched catalog (subject_of query)); reflexivity. }
  destruct (contains "filter" (lower t) || contains "rating" (lower t)
            || contains "top rated" (lower t))%bool.
  { subst head. reflexivity. }
  destruct (contains "present" (lower t) || contains "suggest" (lower t)
            || contains "recommend" (lower t))%bool.
  { subst head. cbn.
    destruct (get_default (filtered_books state) []); reflexivity. }
  subst head. reflexivity.
Qed.
End Dispatcher.

Section DispatcherClaims.
Variable catalog : string -> Z -> http_result.




(** C5: the FILTER step reads [books] (the empty list when the key is
    missing) and returns it sorted by [averageRating], highest first: a
    permutation of the input in which books of equal rating keep their
    original order; [filtered_books] is that list trimmed to title and
    authors. *)
Theorem filter_step_sorts_stably
    (step : pyval) (t : string) (state : BookState) :
  task_text step = Some t -> classify (lower t) = FILTER ->
  let input := get_default (books state) [] in
  exists filtered,
    outcome (dynamic_tool_agent catalog step state)
    = Ok (RetBooks filtered, set_filtered_books state (map to_pick filtered))
    /\ Permutation input filtered
    /\ StronglySorted (fun a b => (rating b <= rating a)%Q) filtered
    /\ forall r,
         filter (fun b => Qeq_bool (rating b) r) filtered
         = filter (fun b => Qeq_bool (rating b) r) input.
Proof.
  intros Ht Hc input. rewrite (dispatch_equation catalog _ _ state Ht), Hc.
  cbn [outcome snd]. eexists. split; [reflexivity|].
  apply sorted_reverse_spec.
Qed.

Lemma firstn_min {A} (n : nat) (l : list A) :
  firstn n l = firstn (Nat.min n (List.length l)) l.
Proof.
  destruct (Nat.le_ge_cases n (List.length l)) as [H|H].
  - rewrite Nat.min_l by exact H. reflexivity.
  - rewrite Nat.min_r by exact H.
    rewrite firstn_all, firstn_all2 by exact H. reflexivity.
Qed.

(** C6: the PRESENT step reads [filtered_books] (the empty list when the
    key is missing), stores the titles of its first [min 5 len] entries, in
    order, as [presentation] and its first entry as [top_book]; it does not
    raise, and with nothing to present it stores the empty list and the
    empty record. *)
Theorem present_step_top_five
    (step : pyval) (t : string) (state : BookState) :
  task_text step = Some t -> classify (lower t) = PRESENT ->
  let filtered := get_default (filtered_books state) [] in
  exists titles top state',
    outcome (dynamic_tool_agent catalog step state)
    = Ok (RetTitles titles, state')
    /\ state' = set_top_book (set_presentation state titles) top
    /\ presentation state' = Some titles
    /\ top_book state' = Some top
    /\ titles
       = map p_title (firstn (Nat.min 5 (List.length filtered)) filtered)
    /\ (List.length titles <= 5)%nat
    /\ top = match filtered with
             | first :: _ => FirstPick first
             | [] => EmptyRecord
             end
    /\ (filtered = [] -> titles = [] /\ top = EmptyRecord).
Proof.
  intros Ht Hc filtered. rewrite (dispatch_equation catalog _ _ state Ht), Hc.
  cbn [outcome snd]. fold filtered. do 3 eexists.
  split; [reflexivity|].
  split; [reflexivity|].
  split; [reflexivity|].
  split; [reflexivity|].
  split; [rewrite <- firstn_min; reflexivity|].
  split; [rewrite length_map; apply firstn_le_length|].
  split; [reflexivity|].
  intros E. rewrite E. split; reflexivity.
Qed.

(** C9, as the code has it: FETCH stores one entry per record of the
    response, in order, each with a title, authors and a rating present
    (["N/A"], [["N/A"]] and [0] standing in for a missing member); a response
    without records gives the empty list.  Nothing is cut off: there are as
    many entries as the response has records. *)
Theorem fetch_step_projects_every_record
    (step : pyval) (t : string) (state : BookState) (data : Volumes) :
  task_text step = Some t -> classify (lower t) = FETCH ->
  catalog (subject_of (get_default (user_query state) "")) 10 = HttpJson data ->
  let upstream := get_default (items data) [] in
  let info (it : Item) := get_default (volumeInfo it) no_volumeInfo in
  exists stored,
    outcome (dynamic_tool_agent catalog step state)
    = Ok (RetRecords (map book_record upstream), set_books state stored)
    /\ stored
       = map (fun it =>
                {| b_title := get_default (vi_title (info it)) "N/A";
                   b_authors := get_default (vi_authors (info it)) ["N/A"];
                   b_averageRating :=
                     Some (get_default (vi_averageRating (info it)) 0%Q) |})
             upstream
    /\ List.length stored = List.length upstream
    /\ Forall (fun b => b_averageRating b <> None) stored
    /\ (forall max_results : nat,
          (List.length upstream <= max_results)%nat ->
          (List.length stored <= max_results)%nat)
    /\ (upstream = [] -> stored = []).
Proof.
  intros Ht Hc Hdata upstream info.
  rewrite (dispatch_equation catalog _ _ state Ht), Hc.
  cbn [outcome snd]. unfold fetched. rewrite Hdata. fold upstream.
  eexists. split; [reflexivity|].
  assert (E : map to_book (map book_record upstream)
              = map (fun it =>
                {| b_title := get_default (vi_title (info it)) "N/A";
                   b_authors := get_default (vi_authors (info it)) ["N/A"];
                   b_averageRating :=
                     Some (get_default (vi_averageRating (info it)) 0%Q) |})
                  upstream).
  { rewrite map_map. reflexivity. }
  split; [exact E|].
  split; [rewrite !length_map; reflexivity|].
  split.
  { rewrite E. apply Forall_forall. intros b Hb.
    apply in_map_iff in Hb. destruct Hb as [it [<- _]]. discriminate. }
  split; [intros n Hn; rewrite !length_map; exact Hn|].
  intros E0. rewrite E0. reflexivity.
Qed.
End DispatcherClaims.

(** *** Worked cases of the dispatcher *)


Example unmatched_step_is_noop :
  dynamic_tool_agent offline (step_of "Make tea") (initial_state "a fantasy")
  = ([PrintDebugSubject "fantasy"], Ok (RetNone, initial_state "a fantasy")).
Proof. reflexivity. Qed.



Lemma filter_step_sorts_stably_witness :
  (exists filtered,
     outcome (dynamic_tool_agent offline (step_of "Filter by rating")
                (set_books (initial_state "q") shelf))
     = Ok (RetBooks filtered,
           set_filtered_books (set_books (initial_state "q") shelf)
             (map to_pick filtered))
     /\ Permutation shelf filtered
     /\ StronglySorted (fun a b => (rating b <= rating a)%Q) filtered
     /\ forall r,
          filter (fun b => Qeq_bool (rating b) r) filtered
          = filter (fun b => Qeq_bool (rating b) r) shelf)
  /\ outcome (dynamic_tool_agent offline (step_of "Filter by rating")
                (set_books (initial_state "q") shelf))
     = Ok (RetBooks [book "B" 5; book "A" 4; book "C" 4],
           set_filtered_books (set_books (initial_state "q") shelf)
             [pick "B"; pick "A"; pick "C"]).
Proof.
  split; [|reflexivity].
  exact (filter_step_sorts_stably offline (step_of "Filter by rating")
           "Filter by rating"
           (set_books (initial_state "q") shelf) eq_refl eq_refl).
Defined.

Lemma present_step_top_five_witness :
  (exists titles top state',
     outcome (dynamic_tool_agent offline (step_of "Recommend something")
                (initial_state "q"))
     = Ok (RetTitles titles, state')
     /\ state' = set_top_book (set_presentation (initial_state "q") titles) top
     /\ presentation state' = Some titles
     /\ top_book state' = Some top
     /\ titles = []
     /\ (List.length titles <= 5)%nat
     /\ top = EmptyRecord
     /\ (@nil Pick = [] -> titles = [] /\ top = EmptyRecord))
  /\ outcome (dynamic_tool_agent offline (step_of "Recommend something")
                (set_filtered_books (initial_state "q") seven_picks))
     = Ok (RetTitles ["1"; "2"; "3"; "4"; "5"],
           set_top_book
             (set_presentation
                (set_filtered_books (initial_state "q") seven_picks)
                ["1"; "2"; "3"; "4"; "5"])
             (FirstPick (pick "1"))).
Proof.
  split; [|reflexivity].
  exact (present_step_top_five offline (step_of "Recommend something")
           "Recommend something" (initial_state "q") eq_refl eq_refl).
Defined.

(** C9 as stated fails on the length: the dispatcher asks for 10 results and
    stores whatever comes back, here 11 entries. *)
Lemma fetch_stores_more_than_requested :
  outcome (dynamic_tool_agent (answering (Some eleven_volumes))
             (step_of "query the catalog") (initial_state "q"))
  = Ok (RetRecords (map (book_record) eleven_volumes),
        set_books (initial_state "q")
          (repeat {| b_title := "N/A"; b_authors := ["N/A"];
                     b_averageRating := Some 0%Q |} 11))
  /\ (10 < List.length (repeat {| b_title := "N/A"; b_authors := ["N/A"];
                                  b_averageRating := Some 0%Q |} 11))%nat.
Proof. split; [reflexivity | simpl; lia]. Qed.

Lemma fetch_step_projects_every_record_witness :
  exists stored,
    outcome (dynamic_tool_agent (answering (Some [bare_item; volume "B" (Some 5%Q)]))
               (step_of "query the catalog") (initial_state "q"))
    = Ok (RetRecords (map book_record [bare_item; volume "B" (Some 5%Q)]),
          set_books (initial_state "q") stored)
    /\ stored = [ {| b_title := "N/A"; b_authors := ["N/A"];
                     b_averageRating := Some 0%Q |};
                  {| b_title := "B"; b_authors := ["N/A"];
                     b_averageRating := Some 5%Q |} ]
    /\ List.length stored = 2%nat
    /\ Forall (fun b => b_averageRating b <> None) stored
    /\ (forall max_results : nat,
          (2 <= max_results)%nat -> (List.length stored <= max_results)%nat)
    /\ ([bare_item; volume "B" (Some 5%Q)] = [] -> stored = []).
Proof.
  exact (fetch_step_projects_every_record
           (answering (Some [bare_item; volume "B" (Some 5%Q)]))
           (step_of "query the catalog") "query the catalog"
           (initial_state "q")
           {| items := Some [bare_item; volume "B" (Some 5%Q)] |}
           eq_refl eq_refl eq_refl).
Defined.

(** ** Plan Generator *)

Local Open Scope string_scope.

Lemma append_assoc (a b c : string) : (a ++ b) ++ c = a ++ (b ++ c).
Proof. induction a as [|x a IH]; simpl; [reflexivity | rewrite IH; reflexivity]. Qed.

Lemma append_empty_r (a : string) : a ++ EmptyString = a.
Proof. induction a as [|x a IH]; simpl; [reflexivity | rewrite IH; reflexivity]. Qed.

Lemma occurs_append (c : ascii) (a b : string) :
  occurs c (a ++ b) <-> occurs c a \/ occurs c b.
Proof.
  induction a as [|x a IH]; simpl; [tauto|]. rewrite IH. tauto.
Qed.

Lemma occurs_split (c : ascii) (s : string) :
  occurs c s -> exists a b, s = a ++ String c b.
Proof.
  induction s as [|d s IH]; simpl; [tauto|]. intros [->|H].
  - exists EmptyString, s. reflexivity.
  - destruct (IH H) as (a & b & ->). exists (String d a), b. reflexivity.
Qed.

Lemma upto_last_close_none (s : string) :
  upto_last_close s = None -> ~ occurs close_bracket s.
Proof.
  induction s as [|d s IH]; simpl; [tauto|].
  destruct (upto_last_close s); [discriminate|].
  destruct (Ascii.eqb d close_bracket) eqn:E; [discriminate|].
  intros _ [H|H]; [|exact (IH eq_refl H)].
  subst d. rewrite Ascii.eqb_refl in E. discriminate.
Qed.

(** The match at one position runs up to the last closing bracket. *)
Lemma upto_last_close_some (s r : string) :
  upto_last_close s = Some r ->
  exists b c, r = b ++ String close_bracket EmptyString
              /\ s = r ++ c /\ ~ occurs close_bracket c.
Proof.
  revert r. induction s as [|d s IH]; simpl; intros r H; [discriminate|].
  destruct (upto_last_close s) as [r'|] eqn:E.
  - injection H as <-. destruct (IH r' eq_refl) as (b & c & -> & Hs & Hc).
    exists (String d b), c. simpl. rewrite Hs at 1. auto.
  - destruct (Ascii.eqb d close_bracket) eqn:Ed; [|discriminate].
    injection H as <-. apply Ascii.eqb_eq in Ed. subst d.
    exists EmptyString, s. simpl. repeat split.
    apply upto_last_close_none. exact E.
Qed.

(** The search starts at the first opening bracket of the text, provided a
    closing bracket follows it, and stops at the last closing bracket. *)
Lemma search_bracketed_some (s m : string) :
  search_bracketed s = Some m ->
  exists a b c,
    s = a ++ m ++ c
    /\ m = String open_bracket (b ++ String close_bracket EmptyString)
    /\ ~ occurs open_bracket a
    /\ ~ occurs close_bracket c.
Proof.
  revert m. induction s as [|d s IH]; simpl; intros m H; [discriminate|].
  assert (Later : search_bracketed s = Some m ->
            (Ascii.eqb d open_bracket = true -> upto_last_close s = None) ->
            exists a b c,
              String d s = a ++ m ++ c
              /\ m = String open_bracket (b ++ String close_bracket EmptyString)
              /\ ~ occurs open_bracket a
              /\ ~ occurs close_bracket c).
  { intros Hs Hd. destruct (IH m Hs) as (a & b & c & Es & Em & Ha & Hc).
    exists (String d a), b, c. simpl. rewrite <- Es.
    repeat split; auto.
    intros [->|Hin]; [|exact (Ha Hin)].
    rewrite Ascii.eqb_refl in Hd.
    apply (upto_last_close_none _ (Hd eq_refl)).
    rewrite Es, Em. apply occurs_append. right.
    apply occurs_append. left. right.
    apply occurs_append. right. left. reflexivity. }
  destruct (Ascii.eqb d open_bracket) eqn:Ed; [|apply Later; congruence].
  destruct (upto_last_close s) as [r|] eqn:Er; [|apply Later; auto].
  injection H as <-. apply Ascii.eqb_eq in Ed. subst d.
  destruct (upto_last_close_some _ _ Er) as (b & c & -> & Es & Hc).
  exists EmptyString, b, c. simpl. rewrite Es at 1.
  repeat split; auto.
Qed.

Lemma search_bracketed_none (s : string) :
  search_bracketed s = None -> ~ has_bracketed s.
Proof.
  induction s as [|d s IH]; simpl; intros H (a & b & c & E).
  - destruct a; discriminate.
  - assert (Hs : search_bracketed s = None).
    { destruct (Ascii.eqb d open_bracket); [|exact H].
      destruct (upto_last_close s); [discriminate | exact H]. }
    destruct a as [|x a]; simpl in E.
    + injection E as -> ->.
      rewrite Ascii.eqb_refl in H.
      destruct (upto_last_close (b ++ String close_bracket c)) eqn:Eu;
        [discriminate|].
      apply upto_last_close_none in Eu. apply Eu.
      apply occurs_append. right. left. reflexivity.
    + injection E as -> ->. apply (IH Hs). exists a, b, c. reflexivity.
Qed.

Lemma search_bracketed_finds (s : string) :
  has_bracketed s -> exists m, search_bracketed s = Some m.
Proof.
  intros H. destruct (search_bracketed s) as [m|] eqn:E; [eauto|].
  exfalso. exact (search_bracketed_none _ E H).
Qed.

Lemma lstrip_split (s : string) : exists u, s = u ++ lstrip s.
Proof.
  induction s as [|d s [u IH]]; simpl.
  - exists EmptyString. reflexivity.
  - destruct (is_space d).
    + exists (String d u). simpl. rewrite <- IH. reflexivity.
    + exists EmptyString. reflexivity.
Qed.

Lemma rstrip_split (s : string) : exists v, s = rstrip s ++ v.
Proof.
  induction s as [|d s [v IH]]; simpl.
  - exists EmptyString. reflexivity.
  - destruct (rstrip s) as [|e r] eqn:E.
    + destruct (is_space d).
      * exists (String d s). reflexivity.
      * exists v. simpl in *. rewrite <- IH. reflexivity.
    + exists v. simpl in *. rewrite <- IH. reflexivity.
Qed.

Lemma has_bracketed_inside (u s v : string) :
  has_bracketed s -> has_bracketed (u ++ s ++ v).
Proof.
  intros (a & b & c & ->). exists (u ++ a), b, (c ++ v).
  rewrite !append_assoc. simpl. rewrite append_assoc. reflexivity.
Qed.

Lemma has_bracketed_strip (s : string) :
  has_bracketed (strip s) -> has_bracketed s.
Proof.
  intros H. unfold strip in H.
  destruct (lstrip_split s) as [u Eu].
  destruct (rstrip_split (lstrip s)) as [v Ev].
  rewrite Eu, Ev. apply has_bracketed_inside. exact H.
Qed.

(** *** The reader of literals only builds a list from a bracketed text *)

Lemma suffix_refl (s : string) : suffix s s.
Proof. exists EmptyString. reflexivity. Qed.

Lemma suffix_trans (a b c : string) : suffix a b -> suffix b c -> suffix a c.
Proof.
  intros [p ->] [q ->]. exists (q ++ p). rewrite append_assoc. reflexivity.
Qed.

Lemma suffix_tail (c : ascii) (r s : string) : suffix (String c r) s -> suffix r s.
Proof.
  intros [p ->]. exists (p ++ String c EmptyString).
  rewrite append_assoc. reflexivity.
Qed.

Lemma suffix_occurs (c : ascii) (r s : string) :
  suffix r s -> occurs c r -> occurs c s.
Proof. intros [p ->] H. apply occurs_append. right. exact H. Qed.

Lemma lstrip_suffix (s : string) : suffix (lstrip s) s.
Proof. destruct (lstrip_split s) as [u E]. exists u. exact E. Qed.

Lemma drop_suffix (n : nat) (s : string) : suffix (Literal.drop n s) s.
Proof.
  revert s. induction n as [|n IH]; intros s; simpl; [apply suffix_refl|].
  destruct s as [|c s]; [apply suffix_refl|].
  apply suffix_trans with (b := s); [apply IH|].
  apply suffix_tail with (c := c), suffix_refl.
Qed.

Lemma read_quoted_suffix (q : ascii) (s body rest : string) :
  Literal.read_quoted q s = Some (body, rest) -> suffix rest s.
Proof.
  revert body. induction s as [|c s IH]; simpl; intros body H; [discriminate|].
  destruct (Ascii.eqb c q).
  - injection H as _ <-. apply suffix_tail with (c := c), suffix_refl.
  - destruct (Ascii.eqb c Literal.backslash || Ascii.eqb c Literal.line_feed)%bool;
      [discriminate|].
    destruct (Literal.read_quoted q s) as [[b r]|]; [|discriminate].
    injection H as _ <-.
    apply suffix_trans with (b := s); [eapply IH; reflexivity|].
    apply suffix_tail with (c := c), suffix_refl.
Qed.

Lemma read_digits_suffix (acc : Z) (s : string) :
  suffix (snd (Literal.read_digits acc s)) s.
Proof.
  revert acc. induction s as [|c s IH]; intros acc; simpl; [apply suffix_refl|].
  destruct (is_digit c); [|apply suffix_refl].
  apply suffix_trans with (b := s); [apply IH|].
  apply suffix_tail with (c := c), suffix_refl.
Qed.

Lemma keyword_spec (word : string) (v w : pyval) (s rest : string) :
  Literal.keyword word v s = Some (w, rest) -> w = v /\ suffix rest s.
Proof.
  unfold Literal.keyword, Literal.after.
  destruct (String.prefix word s); [|discriminate].
  destruct (Literal.token_ends _); [|discriminate].
  intros H. injection H as <- <-. split; [reflexivity | apply drop_suffix].
Qed.

(** An atom is never a list, and what it leaves is the end of its input. *)
Lemma atom_spec (s rest : string) (v : pyval) :
  Literal.atom s = Some (v, rest) ->
  suffix rest s /\ forall l, v <> PList l.
Proof.
  unfold Literal.atom. destruct s as [|c s]; [discriminate|].
  destruct (Ascii.eqb c Literal.quote || Ascii.eqb c Literal.double_quote)%bool.
  { destruct (Literal.read_quoted c s) as [[body r]|] eqn:E; [|discriminate].
    intros H. injection H as <- <-. split; [|discriminate].
    apply suffix_trans with (b := s); [eapply read_quoted_suffix; eauto|].
    apply suffix_tail with (c := c), suffix_refl. }
  destruct (is_digit c).
  { pose proof (read_digits_suffix 0 (String c s)) as Hs.
    destruct (Literal.read_digits 0 (String c s)) as [n r].
    destruct (Literal.token_ends r); [|discriminate].
    intros H. injection H as <- <-. split; [exact Hs | discriminate]. }
  destruct (Literal.keyword "None" PNone (String c s)) as [[w r]|] eqn:E1.
  { intros H. injection H as <- <-.
    destruct (keyword_spec _ _ _ _ _ E1) as [-> Hs]. split; [exact Hs|discriminate]. }
  destruct (Literal.keyword "True" (PBool true) (String c s)) as [[w r]|] eqn:E2.
  { intros H. injection H as <- <-.
    destruct (keyword_spec _ _ _ _ _ E2) as [-> Hs]. split; [exact Hs|discriminate]. }
  intros H. destruct (keyword_spec _ _ _ _ _ H) as [-> Hs].
  split; [exact Hs|discriminate].
Qed.

Lemma suffix_lstrip_tail (c : ascii) (rest r s : string) :
  lstrip s = String c rest -> suffix r rest -> suffix r s.
Proof.
  intros E H. apply suffix_trans with (b := lstrip s); [|apply lstrip_suffix].
  rewrite E. apply suffix_trans with (b := rest); [exact H|].
  apply suffix_tail with (c := c), suffix_refl.
Qed.

Arguments Literal.atom : simpl never.

Lemma parse_spec (fuel : nat) :
  (forall s v r, Literal.parse_value fuel s = Some (v, r) -> suffix r s)
  /\ (forall s vs r, Literal.parse_items fuel s = Some (vs, r) ->
        suffix r s /\ occurs close_bracket s)
  /\ (forall s kvs r, Literal.parse_pairs fuel s = Some (kvs, r) -> suffix r s).
Proof.
  induction fuel as [|fuel (IHv & IHi & IHp)];
    [repeat split; intros; discriminate|].
  split; [|split].
  - intros s v r H. simpl in H.
    destruct (lstrip s) as [|c rest] eqn:Es; [discriminate|].
    destruct (Ascii.eqb c open_bracket).
    { destruct (Literal.parse_items fuel rest) as [[vs r']|] eqn:E; [|discriminate].
      injection H as _ <-. apply (suffix_lstrip_tail _ _ _ _ Es).
      apply (IHi _ _ _ E). }
    destruct (Ascii.eqb c Literal.open_brace).
    { destruct (Literal.parse_pairs fuel rest) as [[kvs r']|] eqn:E; [|discriminate].
      injection H as _ <-. apply (suffix_lstrip_tail _ _ _ _ Es).
      apply (IHp _ _ _ E). }
    apply atom_spec in H. rewrite <- Es in H.
    apply suffix_trans with (b := lstrip s); [apply H | apply lstrip_suffix].
  - intros s vs r H. simpl in H.
    destruct (lstrip s) as [|c rest] eqn:Es; [discriminate|].
    destruct (Ascii.eqb c close_bracket) eqn:Ec.
    { injection H as _ <-. apply Ascii.eqb_eq in Ec. subst c. split.
      - apply (suffix_lstrip_tail _ _ _ _ Es), suffix_refl.
      - apply (suffix_occurs _ _ _ (lstrip_suffix s)). rewrite Es. left. reflexivity. }
    destruct (Literal.parse_value fuel (String c rest)) as [[v r1]|] eqn:Ev;
      [|discriminate].
    apply IHv in Ev. rewrite <- Es in Ev.
    assert (S1 : suffix r1 s)
      by (eapply suffix_trans; [exact Ev | apply lstrip_suffix]).
    destruct (lstrip r1) as [|d r2] eqn:Er; [discriminate|].
    assert (S2 : suffix (String d r2) s).
    { rewrite <- Er. eapply suffix_trans; [apply lstrip_suffix | exact S1]. }
    destruct (Ascii.eqb d Literal.comma).
    { destruct (Literal.parse_items fuel r2) as [[vs' r3]|] eqn:Ei; [|discriminate].
      injection H as _ <-. destruct (IHi _ _ _ Ei) as [S3 O3].
      apply suffix_tail in S2. split.
      - eapply suffix_trans; eauto.
      - eapply suffix_occurs; eauto. }
    destruct (Ascii.eqb d close_bracket) eqn:Ed; [|discriminate].
    injection H as _ <-. apply Ascii.eqb_eq in Ed. subst d. split.
    + apply suffix_tail in S2. exact S2.
    + apply (suffix_occurs _ _ _ S2). left. reflexivity.
  - intros s kvs r H. simpl in H.
    destruct (lstrip s) as [|c rest] eqn:Es; [discriminate|].
    destruct (Ascii.eqb c Literal.close_brace).
    { injection H as _ <-. apply (suffix_lstrip_tail _ _ _ _ Es), suffix_refl. }
    destruct (Literal.parse_value fuel (String c rest)) as [[k r1]|] eqn:Ev;
      [|discriminate].
    apply IHv in Ev. rewrite <- Es in Ev.
    assert (S1 : suffix r1 s)
      by (eapply suffix_trans; [exact Ev | apply lstrip_suffix]).
    destruct k; try discriminate.
    destruct (lstrip r1) as [|d r2] eqn:Er; [discriminate|].
    assert (S2 : suffix r2 s).
    { apply suffix_tail with (c := d). rewrite <- Er.
      eapply suffix_trans; [apply lstrip_suffix | exact S1]. }
    destruct (Ascii.eqb d Literal.colon); [|discriminate].
    destruct (Literal.parse_value fuel r2) as [[v r3]|] eqn:Ev2; [|discriminate].
    apply IHv in Ev2.
    assert (S3 : suffix r3 s) by (eapply suffix_trans; eauto).
    destruct (lstrip r3) as [|e r4] eqn:Er3; [discriminate|].
    assert (S4 : suffix r4 s).
    { apply suffix_tail with (c := e). rewrite <- Er3.
      eapply suffix_trans; [apply lstrip_suffix | exact S3]. }
    destruct (Ascii.eqb e Literal.comma).
    { destruct (Literal.parse_pairs fuel r4) as [[kvs' r5]|] eqn:Ep; [|discriminate].
      injection H as _ <-. eapply suffix_trans; [apply (IHp _ _ _ Ep) | exact S4]. }
    destruct (Ascii.eqb e Literal.close_brace); [|discriminate].
    injection H as _ <-. exact S4.
Qed.

(** The hypothesis the claims about [plan_agent] make on [ast.literal_eval],
    here for the reader of this file: a list comes from a bracketed text. *)
Lemma literal_list_is_bracketed (s : string) (l : list pyval) :
  Literal.literal_eval s = Ok (PList l) -> has_bracketed s.
Proof.
  unfold Literal.literal_eval.
  generalize (S (2 * String.length s)). intros fuel.
  destruct (Literal.parse_value _ s) as [[v rest]|] eqn:E; [|discriminate].
  destruct (lstrip rest); [|discriminate]. intros H. injection H as ->.
  simpl in E.
  destruct (lstrip s) as [|c tail] eqn:Es; [discriminate|].
  destruct (Ascii.eqb c open_bracket) eqn:Ec.
  - destruct (Literal.parse_items _ tail) as [[vs r]|] eqn:Ei; [|discriminate].
    apply parse_spec in Ei. destruct Ei as [_ Ho].
    apply Ascii.eqb_eq in Ec. subst c.
    destruct (occurs_split _ _ Ho) as (b & c & ->).
    destruct (lstrip_split s) as [u Eu]. rewrite Es in Eu.
    exists u, b, c. exact Eu.
  - destruct (Ascii.eqb c Literal.open_brace).
    + destruct (Literal.parse_pairs _ tail) as [[kvs r]|]; discriminate.
    + apply atom_spec in E. destruct E as [_ E]. exfalso. exact (E l eq_refl).
Qed.

Lemma has_bracketed_lstrip (s : string) :
  has_bracketed s -> has_bracketed (lstrip s).
Proof.
  induction s as [|d s IH]; simpl; intros H; [exact H|].
  destruct (is_space d) eqn:Ed; [|exact H].
  apply IH. destruct H as (a & b & c & E).
  destruct a as [|x a]; simpl in E; injection E as -> ->.
  - discriminate.
  - exists a, b, c. reflexivity.
Qed.

Lemma rstrip_after_mark (p : string) (k : ascii) (c : string) :
  is_space k = false ->
  rstrip (p ++ String k c) = p ++ String k (rstrip c).
Proof.
  intros Hk. induction p as [|d p IH]; simpl.
  - rewrite Hk. destruct (rstrip c); reflexivity.
  - rewrite IH. destruct p; reflexivity.
Qed.

Lemma has_bracketed_rstrip (s : string) :
  has_bracketed s -> has_bracketed (rstrip s).
Proof.
  intros (a & b & c & ->).
  change (a ++ String open_bracket (b ++ String close_bracket c))
    with (a ++ (String open_bracket EmptyString ++ (b ++ String close_bracket c))).
  rewrite <- !append_assoc.
  rewrite rstrip_after_mark by reflexivity.
  exists a, b, (rstrip c). rewrite !append_assoc. reflexivity.
Qed.

Lemma has_bracketed_strip_iff (s : string) :
  has_bracketed (strip s) <-> has_bracketed s.
Proof.
  split; [apply has_bracketed_strip|].
  intros H. apply has_bracketed_rstrip, has_bracketed_lstrip, H.
Qed.

Local Open Scope list_scope.

Section PlanGenerator.
Variable literal_eval : string -> result pyval.
Variable invoke : string -> string.

Lemma plan_agent_equation (user_query : string) :
  plan_agent (Some invoke) literal_eval user_query =
  let text := plan_text (invoke (prompt_of user_query)) in
  match literal_eval text with
  | Ok (PList plan) => ([], Ok plan)
  | Ok _ => ([PrintParseFailure text], Raise AssertionError)
  | Raise e => ([PrintParseFailure text], Raise e)
  end.
Proof.
  unfold plan_agent, plan_text.
  destruct (literal_eval _) as [[]|]; reflexivity.
Qed.

Lemma plan_text_unbracketed (reply : string) :
  ~ has_bracketed reply -> plan_text reply = strip reply.
Proof.
  intros H. unfold plan_text.
  destruct (search_bracketed (strip reply)) as [m|] eqn:E; [|reflexivity].
  exfalso. apply H, has_bracketed_strip.
  destruct (search_bracketed_some _ _ E) as (a & b & c & Es & Em & _).
  exists a, b, c. rewrite Es, Em. simpl.
  rewrite append_assoc. reflexivity.
Qed.

(** C7: given that [ast.literal_eval] only builds a list from a text with
    an opening bracket and a closing bracket after it, [plan_agent] raises
    when the reply has no such bracketed part (so that reply never becomes
    an empty plan), it raises whenever the text it extracted does not
    evaluate to a list, and a plan it returns is the list that text
    evaluates to. *)
Theorem plan_agent_raises_without_a_list (user_query : string) :
  (forall s l, literal_eval s = Ok (PList l) -> has_bracketed s) ->
  let reply := invoke (prompt_of user_query) in
  let run := plan_agent (Some invoke) literal_eval user_query in
  (~ has_bracketed reply -> raises run /\ outcome run <> Ok [])
  /\ ((forall l, literal_eval (plan_text reply) <> Ok (PList l)) ->
      raises run)
  /\ (forall plan, outcome run = Ok plan ->
        literal_eval (plan_text reply) = Ok (PList plan)
        /\ has_bracketed reply).
Proof.
  intros Hlit reply run. subst run. rewrite plan_agent_equation.
  fold reply. cbv zeta.
  assert (NotList : (forall l, literal_eval (plan_text reply) <> Ok (PList l)) ->
            raises match literal_eval (plan_text reply) with
                   | Ok (PList plan) => ([], Ok plan)
                   | Ok _ => ([PrintParseFailure (plan_text reply)],
                              Raise AssertionError)
                   | Raise e => ([PrintParseFailure (plan_text reply)], Raise e)
                   end).
  { intros H. unfold raises.
    destruct (literal_eval (plan_text reply)) as [[]|]; cbn; eauto.
    exfalso. eapply H. reflexivity. }
  assert (NoBracket : ~ has_bracketed reply ->
            forall l, literal_eval (plan_text reply) <> Ok (PList l)).
  { intros H l E. apply H. rewrite (plan_text_unbracketed _ H) in E.
    apply has_bracketed_strip. eapply Hlit. exact E. }
  split; [|split].
  - intros H. pose proof (NoBracket H) as Hn. split; [auto|].
    destruct (literal_eval (plan_text reply)) as [[]|]; cbn; try discriminate.
    exfalso. eapply Hn. reflexivity.
  - exact NotList.
  - intros plan H.
    destruct (literal_eval (plan_text reply)) as [[]|] eqn:E;
      cbn in H; try discriminate.
    injection H as ->. split; [reflexivity|].
    unfold plan_text in E.
    destruct (search_bracketed (strip reply)) as [m|] eqn:Em.
    + apply has_bracketed_strip.
      destruct (search_bracketed_some _ _ Em) as (a & b & c & Es & Eb & _).
      exists a, b, c. rewrite Es, Eb. simpl.
      rewrite append_assoc. reflexivity.
    + apply has_bracketed_strip. eapply Hlit. exact E.
Qed.

(** C8, as the code has it: when the reply has a bracketed part, the text
    handed to [ast.literal_eval] runs from the first opening bracket of the
    (stripped) reply to its last closing bracket, and the plan is what that
    text evaluates to.  Commentary before the list, and commentary after it
    that has no closing bracket, is dropped. *)
Theorem plan_text_first_open_to_last_close (user_query : string) :
  has_bracketed (invoke (prompt_of user_query)) ->
  let reply := invoke (prompt_of user_query) in
  exists before inside after,
    strip reply = (before ++ plan_text reply ++ after)%string
    /\ plan_text reply
       = String open_bracket (inside ++ String close_bracket EmptyString)
    /\ ~ occurs open_bracket before
    /\ ~ occurs close_bracket after
    /\ forall plan,
         outcome (plan_agent (Some invoke) literal_eval user_query) = Ok plan
         <-> literal_eval (plan_text reply) = Ok (PList plan).
Proof.
  intros H reply. apply has_bracketed_strip_iff in H.
  destruct (search_bracketed_finds _ H) as [m Em].
  destruct (search_bracketed_some _ _ Em) as (a & b & c & Es & Eb & Ha & Hc).
  assert (Et : plan_text reply = m).
  { unfold plan_text. fold reply in Em. rewrite Em. reflexivity. }
  exists a, b, c. rewrite Et.
  split; [exact Es|]. split; [exact Eb|].
  split; [exact Ha|]. split; [exact Hc|].
  intros plan. rewrite plan_agent_equation. fold reply. cbv zeta.
  rewrite Et.
  destruct (literal_eval m) as [[]|]; cbn; split; intros E;
    try discriminate; congruence.
Qed.
End PlanGenerator.

(** *** Worked cases of the Plan Generator *)

Example plan_agent_reads_the_prompt_example :
  plan_agent (Some (fun _ => example_reply)) Literal.literal_eval
    "Suggest the best science fiction book"
  = ([], Ok example_plan).
Proof. vm_compute. reflexivity. Qed.

Example plan_agent_without_model :
  plan_agent None Literal.literal_eval "anything" = ([], Raise ValueError).
Proof. reflexivity. Qed.

Lemma plan_agent_raises_without_a_list_witness :
  raises (plan_agent (Some (fun _ => refusal)) Literal.literal_eval "a scary book")
  /\ plan_agent (Some (fun _ => refusal)) Literal.literal_eval "a scary book"
     = ([PrintParseFailure refusal], Raise LiteralError).
Proof.
  split; [|vm_compute; reflexivity].
  apply (proj1 (plan_agent_raises_without_a_list Literal.literal_eval
                  (fun _ => refusal) "a scary book"
                  literal_list_is_bracketed)).
  apply search_bracketed_none. reflexivity.
Defined.

(** C8 as stated fails: after a well-formed list, commentary with a closing
    bracket of its own is taken into the extracted text, which then is not
    the first list and does not evaluate. *)
Lemma commentary_bracket_is_extracted :
  plan_text list_then_reference = list_then_reference
  /\ Literal.literal_eval "[{'task': 'search'}]" = Ok (PList [step_of "search"])
  /\ plan_agent (Some (fun _ => list_then_reference)) Literal.literal_eval "q"
     = ([PrintParseFailure list_then_reference], Raise LiteralError).
Proof. repeat split; vm_compute; reflexivity. Qed.

Lemma plan_text_first_open_to_last_close_witness :
  (exists before inside after,
     strip list_in_prose = (before ++ plan_text list_in_prose ++ after)%string
     /\ plan_text list_in_prose
        = String open_bracket (inside ++ String close_bracket EmptyString)
     /\ ~ occurs open_bracket before
     /\ ~ occurs close_bracket after
     /\ forall plan,
          outcome (plan_agent (Some (fun _ => list_in_prose))
                     Literal.literal_eval "q") = Ok plan
          <-> Literal.literal_eval (plan_text list_in_prose) = Ok (PList plan))
  /\ plan_text list_in_prose = "[{'task': 'search'}]"
  /\ outcome (plan_agent (Some (fun _ => list_in_prose))
                Literal.literal_eval "q") = Ok [step_of "search"].
Proof.
  split; [|split; vm_compute; reflexivity].
  apply (plan_text_first_open_to_last_close Literal.literal_eval
           (fun _ => list_in_prose) "q").
  exists "  Here is the plan: "%string, "{'task': 'search'}"%string,
         " Enjoy.  "%string.
  reflexivity.
Defined.

(** ** Plan Runner *)

Local Open Scope Z_scope.

Lemma list_getitem_in_range {A} (l : list A) (i : Z) :
  0 <= i < Z.of_nat (List.length l) ->
  exists x, list_getitem l i = Ok x /\ In x l.
Proof.
  intros Hi. unfold list_getitem.
  destruct (i <? 0) eqn:E; [apply Z.ltb_lt in E; lia|].
  replace (0 <=? i) with true by (symmetry; apply Z.leb_le; lia).
  replace (i <? Z.of_nat (List.length l)) with true
    by (symmetry; apply Z.ltb_lt; lia).
  cbn [andb].
  destruct (nth_error l (Z.to_nat i)) as [x|] eqn:En.
  - exists x. split; [reflexivity|]. eapply nth_error_In; eauto.
  - apply nth_error_None in En. lia.
Qed.

Section Runner.
Variable llm1 : option (string -> string).
Variable literal_eval : string -> result pyval.
Variable catalog : string -> Z -> http_result.

Lemma plan_agent_ok_is_silent (user_query : string) (p : list pyval) :
  outcome (plan_agent llm1 literal_eval user_query) = Ok p ->
  plan_agent llm1 literal_eval user_query = ([], Ok p).
Proof.
  destruct llm1 as [invoke|]; [|discriminate].
  rewrite plan_agent_equation. cbv zeta.
  destruct (literal_eval _) as [[]|]; cbn; try discriminate.
  intros H. injection H as ->. reflexivity.
Qed.

(** One dispatch of a readable step: one debug line, and the plan and the
    step counter are not touched. *)
Lemma dispatch_readable (step : pyval) (state : BookState) :
  readable step -> online catalog ->
  exists log v state',
    dynamic_tool_agent catalog step state = (log, Ok (v, state'))
    /\ dispatches log = 1%nat
    /\ plan state' = plan state
    /\ current_step state' = current_step state.
Proof.
  intros [t Ht] Hon. rewrite (dispatch_equation catalog _ _ state Ht).
  cbv zeta.
  assert (Hh : forall q, dispatches (warning_of q ++ [PrintDebugSubject (subject_of q)])
                         = 1%nat).
  { intros q. rewrite dispatches_app, dispatches_warning. reflexivity. }
  destruct (classify (lower t)).
  - unfold fetched.
    destruct (catalog _ 10) as [|data] eqn:E; [exfalso; exact (Hon _ E)|].
    do 3 eexists. split; [reflexivity|].
    rewrite dispatches_app, Hh. repeat split.
  - do 3 eexists. split; [reflexivity|]. rewrite Hh. repeat split.
  - do 3 eexists. split; [reflexivity|]. rewrite Hh. repeat split.
  - do 3 eexists. split; [reflexivity|]. rewrite Hh. repeat split.
Qed.

(** A round of the executor before the end of the plan. *)
Lemma tool_node_dispatches (state : BookState) (p : list pyval) (i : Z) :
  plan state = Some p -> current_step state = Some i ->
  0 <= i < Z.of_nat (List.length p) ->
  Forall readable p -> online catalog ->
  exists log state',
    tool_node catalog state = (log, Ok state')
    /\ dispatches log = 1%nat
    /\ plan state' = Some p
    /\ current_step state' = Some (i + 1)
    /\ done state' = Some (i + 1 >=? Z.of_nat (List.length p)).
Proof.
  intros Hp Hi Hr Hall Hon. unfold tool_node. rewrite Hp, Hi.
  unfold lift. cbn [field]. rewrite !bind_ok. cbn [fst snd app].
  replace (i >=? Z.of_nat (List.length p)) with false
    by (symmetry; rewrite Z.geb_leb; apply Z.leb_gt; lia).
  destruct (list_getitem_in_range p i Hr) as (step & -> & Hin).
  rewrite bind_ok. cbn [fst snd app].
  rewrite Forall_forall in Hall.
  destruct (dispatch_readable step state (Hall _ Hin) Hon)
    as (log & v & s' & -> & Hd & Hplan & _).
  rewrite bind_ok. cbn [fst snd ret].
  exists (log ++ []), (set_done (set_current_step s' (i + 1))
                         (i + 1 >=? Z.of_nat (List.length p))).
  split; [reflexivity|]. rewrite app_nil_r.
  split; [exact Hd|]. cbn. rewrite Hplan, Hp. repeat split.
Qed.

(** A round of the executor at the end of the plan: nothing is dispatched. *)
Lemma tool_node_finishes (state : BookState) (p : list pyval) (i : Z) :
  plan state = Some p -> current_step state = Some i ->
  Z.of_nat (List.length p) <= i ->
  tool_node catalog state = ([], Ok (set_done state true)).
Proof.
  intros Hp Hi Hr. unfold tool_node. rewrite Hp, Hi.
  unfold lift. cbn [field]. rewrite !bind_ok. cbn [fst snd app].
  replace (i >=? Z.of_nat (List.length p)) with true
    by (symmetry; rewrite Z.geb_leb; apply Z.leb_le; lia).
  reflexivity.
Qed.
End Runner.

Lemma last_default_irrelevant {A} (l : list A) (d1 d2 : A) :
  l <> [] -> last l d1 = last l d2.
Proof.
  induction l as [|x l IH]; [congruence|]. intros _.
  destruct l as [|y l]; [reflexivity|].
  change (last (y :: l) d1 = last (y :: l) d2). apply IH. discriminate.
Qed.

Lemma in_run_weaken (p : list pyval) (a b : Z) (s : BookState) :
  a <= b -> in_run p b s -> in_run p a s.
Proof.
  intros Hab (Hp & j & Hj & Hr & Hd). split; [exact Hp|].
  exists j. repeat split; try assumption; lia.
Qed.

Lemma in_run_hdrel (p : list pyval) (from : Z) (rest : list BookState) :
  Forall (in_run p from) rest -> HdRel Z.le from (map step_index rest).
Proof.
  destruct 1 as [|s rest (_ & j & Hj & Hr & _) _]; constructor.
  unfold step_index. rewrite Hj. cbn. lia.
Qed.

Section Run.
Variable llm1 : option (string -> string).
Variable literal_eval : string -> result pyval.
Variable catalog : string -> Z -> http_result.

(** From a state at step [i] of [p], the executor needs [len p - i] rounds
    (one, when nothing is left) and dispatches once in each, except in the
    round that finds nothing left. *)
Lemma executor_stream_run (k : nat) :
  forall (fuel : nat) (state : BookState) (p : list pyval) (i : Z),
    plan state = Some p -> current_step state = Some i -> 0 <= i ->
    Z.of_nat k = Z.of_nat (List.length p) - i ->
    (Nat.max 1 k <= fuel)%nat -> Forall readable p -> online catalog ->
    exists log rest,
      executor_stream catalog fuel state = (log, Ok rest)
      /\ dispatches log = k
      /\ List.length rest = Nat.max 1 k
      /\ Forall (in_run p i) rest
      /\ Sorted Z.le (map step_index rest)
      /\ Forall (fun s => truthy (done s) = false) (removelast rest)
      /\ done (last rest state) = Some true
      /\ current_step (last rest state) = Some (Z.of_nat (List.length p)).
Proof.
  induction k as [|k IH]; intros fuel state p i Hp Hi Hi0 Hk Hfuel Hall Hon.
  - destruct fuel as [|fuel]; [simpl in Hfuel; lia|].
    cbn [executor_stream].
    rewrite (tool_node_finishes catalog state p i Hp Hi) by lia.
    rewrite bind_ok. cbn.
    exists [], [set_done state true]. split; [reflexivity|].
    split; [reflexivity|]. split; [reflexivity|].
    split.
    { constructor; [|constructor]. split; [exact Hp|].
      exists i. cbn. repeat split; try assumption; try lia.
      f_equal. symmetry. rewrite Z.geb_leb. apply Z.leb_le. lia. }
    split; [repeat constructor|]. split; [constructor|].
    split; [reflexivity|]. cbn. rewrite Hi. f_equal. lia.
  - destruct fuel as [|fuel]; [simpl in Hfuel; lia|].
    cbn [executor_stream].
    destruct (tool_node_dispatches catalog state p i Hp Hi) as
      (log1 & s1 & -> & Hd1 & Hp1 & Hi1 & Hdone1); try assumption; [lia|].
    rewrite bind_ok. cbn [fst snd].
    assert (Hin1 : in_run p i s1).
    { split; [exact Hp1|]. exists (i + 1). repeat split; try assumption; lia. }
    rewrite Hdone1. cbn [truthy get_default].
    destruct (i + 1 >=? Z.of_nat (List.length p)) eqn:Eend.
    + rewrite Z.geb_leb in Eend. apply Z.leb_le in Eend.
      assert (k = 0%nat) by lia. subst k.
      exists (log1 ++ []), [s1]. split; [reflexivity|].
      rewrite app_nil_r. split; [exact Hd1|]. split; [reflexivity|].
      split; [constructor; [exact Hin1 | constructor]|].
      split; [repeat constructor|]. split; [constructor|].
      cbn [last]. rewrite Hdone1, Hi1.
      split; [f_equal; rewrite Z.geb_leb; apply Z.leb_le; lia | f_equal; lia].
    + rewrite Z.geb_leb in Eend. apply Z.leb_gt in Eend.
      destruct (IH fuel s1 p (i + 1) Hp1 Hi1) as
        (log2 & rest & -> & Hd2 & Hlen & Hrun & Hsorted & Hnot & Hlast & Hstep);
        try assumption; try lia.
      rewrite bind_ok. cbn [fst snd ret].
      assert (Hne : rest <> []) by (destruct rest; [cbn [List.length] in Hlen; lia | discriminate]).
      exists (log1 ++ log2 ++ []), (s1 :: rest). split; [reflexivity|].
      rewrite app_nil_r, dispatches_app, Hd1, Hd2.
      split; [reflexivity|].
      split; [cbn [List.length]; rewrite Hlen; lia|].
      split.
      { constructor; [exact Hin1|].
        eapply Forall_impl; [|exact Hrun].
        intros s. apply in_run_weaken. lia. }
      split.
      { cbn [map]. constructor; [exact Hsorted|].
        unfold step_index at 1. rewrite Hi1. cbn [get_default].
        eapply in_run_hdrel. exact Hrun. }
      split.
      { destruct rest as [|s2 rest]; [congruence|].
        change (removelast (s1 :: s2 :: rest))
          with (s1 :: removelast (s2 :: rest)).
        constructor; [|exact Hnot].
        rewrite Hdone1. reflexivity. }
      destruct rest as [|s2 rest]; [congruence|].
      change (last (s1 :: s2 :: rest) state) with (last (s2 :: rest) state).
      rewrite (last_default_irrelevant (s2 :: rest) state s1 Hne).
      split; assumption.
Qed.
End Run.

Section RunnerClaims.
Variable llm1 : option (string -> string).
Variable literal_eval : string -> result pyval.
Variable catalog : string -> Z -> http_result.

(** C1, as the code has it: when every step of the plan is a mapping with a
    text task, the catalog answers and the driver allows [max 1 (len plan)]
    executor rounds, the run dispatches exactly [len plan] times (not at
    all for the empty plan) and ends in a state with [done] true; no earlier
    state has [done] true.  Along the states the run yields, [current_step]
    never decreases and stays between 0 and [len plan]; in every state the
    executor yields, [done] is true exactly when [current_step] has reached
    [len plan].  The state the planner yields has [done] false and
    [current_step] 0, whatever the plan. *)
Theorem runner_reaches_done_after_every_step
    (recursion_limit : nat) (initial : BookState) (p : list pyval) :
  outcome (plan_agent llm1 literal_eval (get_default (user_query initial) ""))
  = Ok p ->
  Forall readable p -> online catalog ->
  (Nat.max 1 (List.length p) <= recursion_limit)%nat ->
  exists log first rest,
    app_stream llm1 literal_eval catalog recursion_limit initial
    = (log, Ok (first :: rest))
    /\ app_invoke llm1 literal_eval catalog recursion_limit initial
       = (log, Ok (last rest first))
    /\ dispatches log = List.length p
    /\ List.length rest = Nat.max 1 (List.length p)
    /\ (plan first = Some p /\ current_step first = Some 0
        /\ done first = Some false)
    /\ Forall (in_run p 0) rest
    /\ Sorted Z.le (map step_index (first :: rest))
    /\ Forall (fun s => truthy (done s) = false) (removelast (first :: rest))
    /\ done (last rest first) = Some true
    /\ current_step (last rest first) = Some (Z.of_nat (List.length p)).
Proof.
  intros Hplan Hall Hon Hfuel.
  apply plan_agent_ok_is_silent in Hplan.
  set (first := set_done (set_current_step (set_plan initial p) 0) false).
  destruct (executor_stream_run catalog (List.length p) recursion_limit
              first p 0 eq_refl eq_refl)
    as (log & rest & Hrun & Hd & Hlen & Hin & Hsorted & Hnot & Hlast & Hstep);
    try assumption; try lia.
  assert (Hne : rest <> [])
    by (destruct rest; [cbn [List.length] in Hlen; lia | discriminate]).
  assert (Hstream : app_stream llm1 literal_eval catalog recursion_limit initial
                    = (log, Ok (first :: rest))).
  { unfold app_stream, plan_node. rewrite Hplan, bind_ok.
    cbn [fst snd ret app]. rewrite bind_ok. cbn [fst snd app].
    fold first. rewrite Hrun, bind_ok.
    cbn [fst snd ret app]. rewrite app_nil_r. reflexivity. }
  exists log, first, rest.
  split; [exact Hstream|].
  split.
  { unfold app_invoke. rewrite Hstream, bind_ok. cbn [fst snd ret].
    rewrite app_nil_r. do 2 f_equal.
    destruct rest as [|s rest]; [congruence|].
    change (last (first :: s :: rest) initial) with (last (s :: rest) initial).
    apply last_default_irrelevant. discriminate. }
  split; [exact Hd|]. split; [exact Hlen|].
  split; [repeat split|]. split; [exact Hin|].
  split.
  { cbn [map]. constructor; [exact Hsorted|].
    change (step_index first) with 0. eapply in_run_hdrel. exact Hin. }
  split.
  { destruct rest as [|s rest]; [congruence|].
    change (removelast (first :: s :: rest))
      with (first :: removelast (s :: rest)).
    constructor; [reflexivity | exact Hnot]. }
  split; assumption.
Qed.
End RunnerClaims.

(** *** Worked cases of the runner *)

(** C1 as stated fails.  A plan with an element that is not a mapping ends
    the run with an exception at its first dispatch, and so does a fetch step
    when the catalog request fails; and for the empty plan the state the
    planner yields has [current_step] equal to the plan length while [done]
    is false. *)
Lemma runner_stops_short :
  app_invoke (Some (fun _ => "['search for books']")) Literal.literal_eval
    (answering None) 25 (initial_state "q")
  = ([], Raise TypeError)
  /\ app_invoke (Some (fun _ => "[{'task': 'search for books'}]"))
       Literal.literal_eval offline 25 (initial_state "q")
     = ([PrintWarnNoGenre; PrintDebugSubject "fiction"; HttpGet "fiction" 10],
        Raise NetworkError)
  /\ exists first last_state,
       app_stream (Some (fun _ => "[]")) Literal.literal_eval
         (answering None) 25 (initial_state "q")
       = ([], Ok [first; last_state])
       /\ plan first = Some []
       /\ current_step first = Some 0
       /\ done first = Some false
       /\ done last_state = Some true.
Proof.
  split; [vm_compute; reflexivity|].
  split; [vm_compute; reflexivity|].
  do 2 eexists. split; [vm_compute; reflexivity|]. repeat split.
Qed.

Lemma example_plan_readable : Forall readable example_plan.
Proof. repeat constructor; eexists; reflexivity. Qed.

Lemma runner_reaches_done_witness :
  exists log states final,
    app_stream (Some (fun _ => example_reply)) Literal.literal_eval
      (answering (Some three_volumes)) 25
      (initial_state "Suggest the best science fiction book")
    = (log, Ok states)
    /\ app_invoke (Some (fun _ => example_reply)) Literal.literal_eval
         (answering (Some three_volumes)) 25
         (initial_state "Suggest the best science fiction book")
       = (log, Ok final)
    /\ dispatches log = 3%nat
    /\ List.length states = 4%nat
    /\ done final = Some true
    /\ current_step final = Some 3.
Proof.
  destruct (runner_reaches_done_after_every_step
              (Some (fun _ => example_reply)) Literal.literal_eval
              (answering (Some three_volumes)) 25
              (initial_state "Suggest the best science fiction book")
              example_plan)
    as (log & first & rest & H1 & H2 & H3 & H4 & _ & _ & _ & _ & H5 & H6).
  - vm_compute. reflexivity.
  - exact example_plan_readable.
  - intros subject. discriminate.
  - simpl. lia.
  - exists log, (first :: rest), (last rest first).
    repeat split; try assumption.
    cbn [List.length]. rewrite H4. reflexivity.
Defined.

Example run_on_three_volumes :
  app_invoke (Some (fun _ => example_reply)) Literal.literal_eval
    (answering (Some three_volumes)) 25
    (initial_state "Suggest the best science fiction book")
  = ([PrintDebugSubject "science fiction"; HttpGet "science fiction" 10;
      PrintDebugSubject "science fiction"; PrintDebugSubject "science fiction"],
     Ok {| user_query := Some "Suggest the best science fiction book";
           plan := Some example_plan;
           current_step := Some 3;
           done := Some true;
           books := Some [book "A" 4; book "B" 5; book "C" 4];
           filtered_books := Some [pick "B"; pick "A"; pick "C"];
           top_book := Some (FirstPick (pick "B"));
           presentation := Some ["B"; "A"; "C"] |}).
Proof. vm_compute. reflexivity. Qed.

(** ** The panel *)

(** Once a PRESENT step has run, the panel shows a list, never the notice. *)
Lemma present_step_fills_panel
    (catalog : string -> Z -> http_result)
    (step : pyval) (t : string) (state state' : BookState) (v : retval) :
  task_text step = Some t -> classify (lower t) = PRESENT ->
  outcome (dynamic_tool_agent catalog step state) = Ok (v, state') ->
  show state'
  = Write (map p_title (firstn 5 (get_default (filtered_books state) []))).
Proof.
  intros Ht Hc. rewrite (dispatch_equation catalog _ _ state Ht), Hc.
  cbn [outcome snd]. intros H. injection H as _ <-. reflexivity.
Qed.

(** A round of the executor, given what the dispatcher does with the step. *)
Lemma tool_node_equation
    (catalog : string -> Z -> http_result)
    (state state' : BookState) (p : list pyval) (i : Z) (step : pyval)
    (log : list event) (v : retval) :
  plan state = Some p -> current_step state = Some i ->
  i < Z.of_nat (List.length p) ->
  list_getitem p i = Ok step ->
  dynamic_tool_agent catalog step state = (log, Ok (v, state')) ->
  tool_node catalog state
  = (log, Ok (set_done (set_current_step state' (i + 1))
                (i + 1 >=? Z.of_nat (List.length p)))).
Proof.
  intros Hp Hi Hr Hstep Hrun. unfold tool_node. rewrite Hp, Hi.
  unfold lift. cbn [field]. rewrite !bind_ok. cbn [fst snd app].
  replace (i >=? Z.of_nat (List.length p)) with false
    by (symmetry; rewrite Z.geb_leb; apply Z.leb_gt; lia).
  rewrite Hstep, bind_ok. cbn [fst snd app]. rewrite Hrun, bind_ok.
  cbn [fst snd ret]. rewrite app_nil_r. reflexivity.
Qed.

Section Panel.
Variable llm1 : option (string -> string).
Variable literal_eval : string -> result pyval.
Variable catalog : string -> Z -> http_result.

(** C10: when the plan is a fetch step, a filter step and a present step, the
    panel shows the titles of the (at most five) best rated books of the
    answer.  That list is non-empty exactly when the catalog returned an
    item; when it returned none, the panel still shows the list, now empty,
    and not the notice, which needs [presentation] to be missing. *)
Theorem fetch_filter_present_shows_a_list
    (recursion_limit : nat) (query : string)
    (s1 s2 s3 : pyval) (t1 t2 t3 : string) (data : Volumes) :
  outcome (plan_agent llm1 literal_eval query) = Ok [s1; s2; s3] ->
  task_text s1 = Some t1 -> classify (lower t1) = FETCH ->
  task_text s2 = Some t2 -> classify (lower t2) = FILTER ->
  task_text s3 = Some t3 -> classify (lower t3) = PRESENT ->
  catalog (subject_of query) 10 = HttpJson data ->
  (3 <= recursion_limit)%nat ->
  let found := get_default (items data) [] in
  exists titles,
    generate_recommendation llm1 literal_eval catalog recursion_limit query
    = Write titles
    /\ titles
       = map b_title
           (firstn 5 (sorted rating true (map to_book (map book_record found))))
    /\ (found = [] -> titles = [])
    /\ (found <> [] -> titles <> []).
Proof.
  intros Hplan H1 C1 H2 C2 H3 C3 Hdata Hfuel found.
  apply plan_agent_ok_is_silent in Hplan.
  destruct recursion_limit as [|[|[|limit]]]; try lia.
  set (books0 := map to_book (map book_record found)).
  set (sorted0 := sorted rating true books0).
  exists (map b_title (firstn 5 sorted0)).
  split; [|split; [reflexivity|split]].
  - unfold generate_recommendation, app_invoke, app_stream, plan_node.
    cbn [initial_state user_query get_default]. rewrite Hplan, bind_ok.
    cbn [fst snd ret app]. rewrite bind_ok. cbn [fst snd app].
    set (st0 := set_done (set_current_step
                            (set_plan (initial_state query) [s1; s2; s3]) 0) false).
    cbn [executor_stream].
    pose proof (dispatch_equation catalog s1 t1 st0 H1) as E1.
    cbv zeta in E1. rewrite C1 in E1. unfold fetched in E1.
    cbn [st0 user_query set_done set_current_step set_plan initial_state
         get_default] in E1.
    rewrite Hdata in E1. fold found in E1. fold books0 in E1.
    rewrite (tool_node_equation catalog st0 _ [s1; s2; s3] 0 s1 _ _
               eq_refl eq_refl eq_refl eq_refl E1).
    rewrite bind_ok. cbn [fst snd].
    set (st1 := set_done (set_current_step (set_books st0 books0) (0 + 1))
                  (0 + 1 >=? Z.of_nat (List.length [s1; s2; s3]))).
    change (truthy (done st1)) with false. cbv iota.
    pose proof (dispatch_equation catalog s2 t2 st1 H2) as E2.
    cbv zeta in E2. rewrite C2 in E2.
    change (get_default (books st1) []) with books0 in E2. fold sorted0 in E2.
    rewrite (tool_node_equation catalog st1 _ [s1; s2; s3] 1 s2 _ _
               eq_refl eq_refl eq_refl eq_refl E2).
    rewrite bind_ok. cbn [fst snd].
    set (st2 := set_done (set_current_step
                            (set_filtered_books st1 (map to_pick sorted0)) (1 + 1))
                  (1 + 1 >=? Z.of_nat (List.length [s1; s2; s3]))).
    change (truthy (done st2)) with false. cbv iota.
    pose proof (dispatch_equation catalog s3 t3 st2 H3) as E3.
    cbv zeta in E3. rewrite C3 in E3.
    change (get_default (filtered_books st2) []) with (map to_pick sorted0) in E3.
    rewrite (tool_node_equation catalog st2 _ [s1; s2; s3] 2 s3 _ _
               eq_refl eq_refl eq_refl eq_refl E3).
    rewrite bind_ok. cbn [fst snd].
    match goal with
    | |- context [truthy (done ?st)] => change (truthy (done st)) with true
    end.
    cbv beta iota delta [bind ret fst snd outcome last show].
    cbn [presentation set_done set_current_step set_top_book set_presentation].
    rewrite <- firstn_map, map_map, firstn_map. reflexivity.
  - intros E. unfold sorted0, books0. rewrite E. reflexivity.
  - intros Hne E. apply Hne.
    assert (Hlen : List.length sorted0 = List.length found).
    { unfold sorted0. rewrite <- (Permutation_length
                                   (proj1 (sorted_reverse_spec _ rating books0))).
      unfold books0. rewrite !length_map. reflexivity. }
    destruct found as [|x found']; [reflexivity|].
    destruct sorted0 as [|y sorted']; [discriminate | discriminate].
Qed.
End Panel.

Lemma fetch_filter_present_shows_a_list_witness :
  (exists titles,
     generate_recommendation (Some (fun _ => example_reply)) Literal.literal_eval
       (answering None) 25 "Suggest the best science fiction book"
     = Write titles
     /\ titles
        = map b_title
            (firstn 5 (sorted rating true (map to_book (map book_record []))))
     /\ (@nil Item = [] -> titles = [])
     /\ (@nil Item <> [] -> titles <> []))
  /\ generate_recommendation (Some (fun _ => example_reply)) Literal.literal_eval
       (answering None) 25 "Suggest the best science fiction book"
     = Write []
  /\ generate_recommendation (Some (fun _ => example_reply))
       Literal.literal_eval (answering (Some [])) 25
       "Suggest the best science fiction book"
     = Write []
  /\ generate_recommendation (Some (fun _ => example_reply))
       Literal.literal_eval (answering (Some three_volumes)) 25
       "Suggest the best science fiction book"
     = Write ["B"; "A"; "C"]
  /\ generate_recommendation (Some (fun _ => "[{'task': 'search'}]"))
       Literal.literal_eval (answering None) 25
       "Suggest the best science fiction book"
     = Warning "No recommendations found.".
Proof.
  split; [|repeat split; vm_compute; reflexivity].
  refine (fetch_filter_present_shows_a_list
            (Some (fun _ => example_reply)) Literal.literal_eval
            (answering None) 25 "Suggest the best science fiction book"
            (nth 0 example_plan PNone) (nth 1 example_plan PNone)
            (nth 2 example_plan PNone) _ _ _ {| items := None |}
            _ eq_refl eq_refl eq_refl eq_refl eq_refl eq_refl eq_refl _).
  - vm_compute. reflexivity.
  - lia.
Defined.

(* ====================================================================== *)
(** * Further properties of the code *)

(** ** The monad, continued *)

Lemma bind_ret_r {A} (m : M A) : bind m ret = m.
Proof.
  destruct m as [l [a|e]]; [|reflexivity].
  unfold bind, ret. rewrite app_nil_r. reflexivity.
Qed.

Lemma bind_assoc {A B C} (m : M A) (f : A -> M B) (g : B -> M C) :
  bind (bind m f) g = bind m (fun a => bind (f a) g).
Proof.
  destruct m as [l [a|e]]; [|reflexivity].
  unfold bind. destruct (f a) as [l1 [b|e1]]; [|reflexivity].
  destruct (g b) as [l2 r]. rewrite app_assoc. reflexivity.
Qed.

Lemma bind_ext {A B} (m : M A) (f g : A -> M B) :
  (forall a, f a = g a) -> bind m f = bind m g.
Proof.
  intros H. destruct m as [l [a|e]]; [|reflexivity].
  unfold bind. rewrite H. reflexivity.
Qed.

Lemma bind_ret_l {A B} (a : A) (f : A -> M B) : bind (ret a) f = f a.
Proof. unfold bind, ret. destruct (f a). reflexivity. Qed.

(** ** Genre Extractor, continued *)

Lemma lower_char_idempotent (c : ascii) :
  lower_char (lower_char c) = lower_char c.
Proof. destruct c as [[] [] [] [] [] [] [] []]; reflexivity. Qed.

Lemma lower_idempotent (s : string) : lower (lower s) = lower s.
Proof.
  induction s as [|c s IH]; simpl; [reflexivity|].
  rewrite lower_char_idempotent, IH. reflexivity.
Qed.




(** X1: the label does not depend on the case of the request: a request and
    its lowercased form get the same label and the same warning. *)
Theorem extract_subject_ignores_case (query : string) :
  extract_subject_from_query (lower query) = extract_subject_from_query query.
Proof.
  unfold extract_subject_from_query, query_clean_of.
  rewrite lower_idempotent. reflexivity.
Qed.



Lemma prefix_spec (n h : string) :
  String.prefix n h = true <-> exists post, h = (n ++ post)%string.
Proof.
  revert h. induction n as [|c n IH]; intros h.
  - split; [intros _; exists h; reflexivity | intros _; destruct h; reflexivity].
  - destruct h as [|d h]; simpl.
    + split; [discriminate | intros [post E]; discriminate].
    + destruct (Ascii.ascii_dec c d) as [->|Hne].
      * rewrite IH. split; intros [post E]; exists post.
        -- rewrite E. reflexivity.
        -- injection E as E. exact E.
      * split; [discriminate|]. intros [post E]. injection E as E _.
        congruence.
Qed.

Lemma contains_spec (n h : string) :
  contains n h = true <-> exists pre post, h = (pre ++ n ++ post)%string.
Proof.
  induction h as [|d h IH].
  - rewrite contains_empty, prefix_spec. split.
    + intros [post E]. exists EmptyString, post. exact E.
    + intros (pre & post & E). destruct pre; [|discriminate].
      exists post. exact E.
  - rewrite contains_cons.
    destruct (String.prefix n (String d h)) eqn:Ep.
    + split; [|reflexivity]. intros _. apply prefix_spec in Ep.
      destruct Ep as [post E]. exists EmptyString, post. exact E.
    + rewrite IH. split.
      * intros (pre & post & E). exists (String d pre), post.
        simpl. rewrite E. reflexivity.
      * intros (pre & post & E). destruct pre as [|x pre].
        -- exfalso. assert (String.prefix n (String d h) = true)
             by (apply prefix_spec; exists post; exact E).
           congruence.
        -- injection E as _ E. exists pre, post. exact E.
Qed.

(** A text that contains [a ++ b ++ c] contains [b]. *)
Lemma contains_inner (a b c h : string) :
  contains (a ++ b ++ c)%string h = true -> contains b h = true.
Proof.
  rewrite !contains_spec. intros (pre & post & ->).
  exists (pre ++ a)%string, (c ++ post)%string.
  rewrite !append_assoc. reflexivity.
Qed.

(** Either an entry before the last one matched, silently, or nothing
    matched at all and the warning was printed. *)
Lemma extract_subject_cases (query : string) :
  (exists subject,
     extract_subject_from_query query = ([], Ok subject)
     /\ In subject live_subjects)
  \/ (extract_subject_from_query query = ([PrintWarnNoGenre], Ok "fiction")
      /\ first_subject subject_keywords (query_clean_of query) = None).
Proof.
  unfold extract_subject_from_query.
  set (t := query_clean_of query).
  assert (H1 : contains "historical fiction" t = true ->
               contains "historical" t = true)
    by apply (contains_inner "" "historical" " fiction").
  assert (H2 : contains "period drama" t = true -> contains "drama" t = true)
    by apply (contains_inner "period " "drama" "").
  unfold subject_keywords. cbn [first_subject any_phrase].
  repeat match goal with
         | |- context [if contains ?p t then _ else _] =>
             destruct (contains p t) eqn:?;
             [try (left; eexists; split; [reflexivity | simpl; tauto]) |]
         end;
    try (specialize (H1 eq_refl); congruence);
    try (specialize (H2 eq_refl); congruence).
  right. split; reflexivity.
Qed.

Lemma first_subject_none (table : list (string * list string)) (text : string) :
  first_subject table text = None
  <-> Forall (fun entry =>
                Forall (fun phrase => contains phrase text = false) (snd entry))
        table.
Proof.
  induction table as [|[subject keywords] rest IH]; simpl.
  - split; [constructor | reflexivity].
  - assert (E : any_phrase keywords text = false
                <-> Forall (fun phrase => contains phrase text = false) keywords).
    { clear. induction keywords as [|k ks IHk]; simpl.
      - split; [constructor | reflexivity].
      - destruct (contains k text) eqn:Ek.
        + split; [discriminate|]. intros H. inversion H. congruence.
        + rewrite IHk. split; [constructor; assumption|].
          intros H. inversion H. assumption. }
    destruct (any_phrase keywords text).
    + split; [discriminate|]. intros H. inversion H; subst.
      apply E in H2. discriminate.
    + rewrite IH. split.
      * intros H. constructor; [apply E; reflexivity | exact H].
      * intros H. inversion H. assumption.
Qed.

(** X3: the extractor always returns, and what it returns is one of fifteen
    subjects of the table or ["fiction"].  The sixteenth subject of the table,
    ["historical fiction"], is never returned: a text with one of its phrases
    has a phrase of ["history"] or of ["drama"], which come first. *)
Theorem extract_subject_range (query : string) :
  In "historical fiction" (map fst subject_keywords)
  /\ exists subject,
       outcome (extract_subject_from_query query) = Ok subject
       /\ In subject (live_subjects ++ ["fiction"])
       /\ subject <> "historical fiction".
Proof.
  split; [simpl; tauto|].
  destruct (extract_subject_cases query) as [(subject & E & Hin)|[E _]];
    rewrite E; cbn [outcome snd].
  - exists subject. split; [reflexivity|]. split.
    + apply in_or_app. left. exact Hin.
    + intros ->. simpl in Hin.
      repeat (destruct Hin as [Hin|Hin]; [discriminate|]). exact Hin.
  - exists "fiction". split; [reflexivity|]. split.
    + apply in_or_app. right. left. reflexivity.
    + discriminate.
Qed.

(** X4: the warning is printed exactly when the default label is returned,
    and that happens exactly when no phrase of the table occurs in the
    cleaned request; otherwise nothing is printed. *)
Theorem extract_subject_warns_on_fallback (query : string) :
  let run := extract_subject_from_query query in
  (trace run = [] \/ trace run = [PrintWarnNoGenre])
  /\ (trace run = [PrintWarnNoGenre] <-> outcome run = Ok "fiction")
  /\ (outcome run = Ok "fiction"
      <-> Forall (fun entry =>
                    Forall (fun phrase =>
                              contains phrase (query_clean_of query) = false)
                      (snd entry))
            subject_keywords).
Proof.
  cbv zeta. rewrite <- first_subject_none.
  destruct (extract_subject_cases query) as [(subject & E & Hin)|[E Hnone]];
    rewrite E; cbn [trace outcome fst snd].
  - assert (Hs : subject <> "fiction").
    { intros ->. simpl in Hin.
      repeat (destruct Hin as [Hin|Hin]; [discriminate|]). exact Hin. }
    split; [left; reflexivity|]. split.
    + split; [discriminate | congruence].
    + split; [congruence|]. intros Hnone.
      unfold extract_subject_from_query in E. rewrite Hnone in E.
      discriminate.
  - split; [right; reflexivity|]. split; [tauto|]. tauto.
Qed.

(** ** Plan Generator, continued *)

Lemma upto_last_close_absent (s : string) :
  ~ occurs close_bracket s -> upto_last_close s = None.
Proof.
  intros H. destruct (upto_last_close s) as [r|] eqn:E; [|reflexivity].
  exfalso. apply H.
  destruct (upto_last_close_some _ _ E) as (b & c & -> & -> & _).
  apply occurs_append. left. apply occurs_append. right. left. reflexivity.
Qed.

Lemma upto_last_close_exact (b post : string) :
  ~ occurs close_bracket post ->
  upto_last_close (b ++ String close_bracket post)%string
  = Some (b ++ String close_bracket EmptyString)%string.
Proof.
  intros H. induction b as [|d b IH]; simpl.
  - rewrite (upto_last_close_absent _ H). reflexivity.
  - rewrite IH. reflexivity.
Qed.

Lemma search_bracketed_exact (pre b post : string) :
  ~ occurs open_bracket pre -> ~ occurs close_bracket post ->
  search_bracketed (pre ++ String open_bracket (b ++ String close_bracket post))%string
  = Some (String open_bracket (b ++ String close_bracket EmptyString))%string.
Proof.
  intros Hpre Hpost. induction pre as [|d pre IH]; simpl.
  - rewrite upto_last_close_exact by exact Hpost. reflexivity.
  - destruct (Ascii.eqb d open_bracket) eqn:Ed.
    + exfalso. apply Hpre. left. apply Ascii.eqb_eq. exact Ed.
    + apply IH. intros H. apply Hpre. right. exact H.
Qed.

Section PlanGeneratorMore.
Variable literal_eval : string -> result pyval.
Variable catalog : string -> Z -> http_result.

(** X5: when the stripped reply is some commentary without an opening
    bracket, a bracketed text, and some commentary without a closing bracket,
    the bracketed text is what is evaluated, whole, whatever brackets it has
    inside; the plan is the list it evaluates to and nothing is printed. *)
Theorem plan_agent_extracts_outer_list
    (invoke : string -> string) (user_query pre inside post : string)
    (plan : list pyval) :
  strip (invoke (prompt_of user_query))
  = (pre ++ String open_bracket (inside ++ String close_bracket post))%string ->
  ~ occurs open_bracket pre -> ~ occurs close_bracket post ->
  literal_eval
    (String open_bracket (inside ++ String close_bracket EmptyString))%string
  = Ok (PList plan) ->
  plan_agent (Some invoke) literal_eval user_query = ([], Ok plan).
Proof.
  intros Hreply Hpre Hpost Hlit. rewrite plan_agent_equation. cbv zeta.
  unfold plan_text. rewrite Hreply.
  rewrite (search_bracketed_exact pre inside post Hpre Hpost), Hlit.
  reflexivity.
Qed.

Lemma plan_agent_trace (llm1 : option (string -> string)) (user_query : string) :
  dispatches (trace (plan_agent llm1 literal_eval user_query)) = 0%nat
  /\ requests (trace (plan_agent llm1 literal_eval user_query)) = 0%nat.
Proof.
  destruct llm1 as [invoke|]; [|split; reflexivity].
  rewrite plan_agent_equation. cbv zeta.
  destruct (literal_eval _) as [[]|]; split; reflexivity.
Qed.

(** X6: when the Planning Agent raises (no model was set, the reply does not
    evaluate, or it evaluates to something that is not a list), the run ends
    with that exception before anything is dispatched or requested from the
    catalog, and the panel shows the error. *)
Theorem failed_plan_aborts_run
    (llm1 : option (string -> string)) (recursion_limit : nat)
    (query : string) (e : exn) :
  outcome (plan_agent llm1 literal_eval query) = Raise e ->
  app_invoke llm1 literal_eval catalog recursion_limit (initial_state query)
  = (trace (plan_agent llm1 literal_eval query), Raise e)
  /\ dispatches (trace (plan_agent llm1 literal_eval query)) = 0%nat
  /\ requests (trace (plan_agent llm1 literal_eval query)) = 0%nat
  /\ generate_recommendation llm1 literal_eval catalog recursion_limit query
     = Error e.
Proof.
  intros H.
  assert (E : app_invoke llm1 literal_eval catalog recursion_limit
                (initial_state query)
              = (trace (plan_agent llm1 literal_eval query), Raise e)).
  { unfold app_invoke, app_stream, plan_node.
    cbn [initial_state user_query get_default].
    destruct (plan_agent llm1 literal_eval query) as [l r].
    cbn [outcome snd] in H. subst r. reflexivity. }
  split; [exact E|].
  split; [apply plan_agent_trace|]. split; [apply plan_agent_trace|].
  unfold generate_recommendation. rewrite E. reflexivity.
Qed.
End PlanGeneratorMore.

Lemma plan_agent_extracts_outer_list_witness :
  plan_agent (Some (fun _ => nested_reply)) Literal.literal_eval "poems"
  = ([], Ok [PDict [("task", PStr "search"); ("shelves", PList [PInt 1; PInt 2])];
             PDict [("task", PStr "recommend")]]).
Proof.
  apply (plan_agent_extracts_outer_list Literal.literal_eval
           (fun _ => nested_reply) "poems" "Plan: "
           "{'task': 'search', 'shelves': [1, 2]}, {'task': 'recommend'}"
           " (done)").
  - reflexivity.
  - simpl. intros H. repeat (destruct H as [H|H]; [discriminate|]). exact H.
  - simpl. intros H. repeat (destruct H as [H|H]; [discriminate|]). exact H.
  - vm_compute. reflexivity.
Defined.

Lemma failed_plan_aborts_run_witness :
  app_invoke None Literal.literal_eval (answering (Some three_volumes)) 25
    (initial_state "a scary book")
  = ([], Raise ValueError)
  /\ generate_recommendation (Some (fun _ => refusal)) Literal.literal_eval
       (answering (Some three_volumes)) 25 "a scary book"
     = Error LiteralError.
Proof.
  split.
  - apply (failed_plan_aborts_run Literal.literal_eval
             (answering (Some three_volumes)) None 25 "a scary book" ValueError).
    reflexivity.
  - apply (failed_plan_aborts_run Literal.literal_eval
             (answering (Some three_volumes)) (Some (fun _ => refusal)) 25
             "a scary book" LiteralError).
    vm_compute. reflexivity.
Defined.

(** ** Step Dispatcher, continued *)

Lemma filter_head_split {A} (p : A -> bool) (l : list A) (h : A) (x : list A) :
  filter p l = h :: x ->
  exists pre post,
    l = pre ++ h :: post /\ Forall (fun b => p b = false) pre /\ p h = true.
Proof.
  induction l as [|a l IH]; simpl; [discriminate|].
  destruct (p a) eqn:Ea.
  - intros H. injection H as -> _. exists [], l. repeat split; auto.
  - intros H. destruct (IH H) as (pre & post & -> & Hpre & Hh).
    exists (a :: pre), post. repeat split; auto.
Qed.

(** The head of [sorted(l, key=rating, reverse=True)]: the first book of [l]
    among those of the highest rating. *)
Lemma sorted_head_is_first_best (l : list Book) (h : Book) (t : list Book) :
  sorted rating true l = h :: t ->
  exists pre post,
    l = pre ++ h :: post
    /\ Forall (fun b => (rating b < rating h)%Q) pre
    /\ Forall (fun b => (rating b <= rating h)%Q) post.
Proof.
  intros E.
  destruct (sorted_reverse_spec _ rating l) as (Hperm & Hsorted & Hstable).
  rewrite E in Hperm, Hsorted, Hstable.
  assert (Hmax : forall b, In b l -> (rating b <= rating h)%Q).
  { intros b Hb. apply (Permutation_in _ Hperm) in Hb.
    destruct Hb as [<-|Hb]; [apply Qle_refl|].
    inversion Hsorted as [|? ? _ Hall]; subst.
    rewrite Forall_forall in Hall. auto. }
  specialize (Hstable (rating h)). cbn [filter] in Hstable.
  replace (Qeq_bool (rating h) (rating h)) with true in Hstable
    by (symmetry; apply Qeq_bool_iff; reflexivity).
  symmetry in Hstable.
  destruct (filter_head_split _ _ _ _ Hstable) as (pre & post & -> & Hpre & _).
  exists pre, post. split; [reflexivity|]. split.
  - apply Forall_forall. intros b Hb.
    rewrite Forall_forall in Hpre. specialize (Hpre b Hb).
    assert (Hle : (rating b <= rating h)%Q)
      by (apply Hmax, in_or_app; left; exact Hb).
    apply Qle_lteq in Hle. destruct Hle as [Hlt|Heq]; [exact Hlt|].
    apply Qeq_bool_iff in Heq. congruence.
  - apply Forall_forall. intros b Hb.
    apply Hmax, in_or_app. right. right. exact Hb.
Qed.

Section DispatcherMore.
Variable catalog : string -> Z -> http_result.

Lemma returning_step_is_readable
    (step : pyval) (state : BookState) (r : retval * BookState) :
  outcome (dynamic_tool_agent catalog step state) = Ok r -> readable step.
Proof.
  unfold readable, task_text, dynamic_tool_agent.
  destruct (getitem step "task") as [v|e]; [|discriminate].
  destruct v; try discriminate. eauto.
Qed.

Lemma returning_dispatch_frame
    (step : pyval) (state state' : BookState) (v : retval) :
  outcome (dynamic_tool_agent catalog step state) = Ok (v, state') ->
  user_query state' = user_query state
  /\ plan state' = plan state
  /\ current_step state' = current_step state
  /\ done state' = done state.
Proof.
  intros H. destruct (returning_step_is_readable _ _ _ H) as [t Ht].
  rewrite (dispatch_equation catalog _ _ state Ht) in H. cbv zeta in H.
  destruct (classify (lower t)); cbn [outcome snd] in H.
  - destruct (fetched catalog _); [|discriminate].
    injection H as _ <-. repeat split.
  - injection H as _ <-. repeat split.
  - injection H as _ <-. repeat split.
  - injection H as _ <-. repeat split.
Qed.

(** X7: a dispatch that returns has not touched the request, the plan, the
    step counter or the completion flag, whatever the step was; and of the
    results it has written those of its own group only: a fetch leaves
    [filtered_books], [top_book] and [presentation] as they were (stale after
    a second fetch), a filter leaves [books], [top_book] and [presentation],
    a present leaves [books] and [filtered_books], and an unmatched step
    leaves everything. *)
Theorem dispatch_keeps_control_fields
    (step : pyval) (state state' : BookState) (v : retval) :
  outcome (dynamic_tool_agent catalog step state) = Ok (v, state') ->
  (user_query state' = user_query state
   /\ plan state' = plan state
   /\ current_step state' = current_step state
   /\ done state' = done state)
  /\ exists t,
       task_text step = Some t
       /\ match classify (lower t) with
          | FETCH =>
              filtered_books state' = filtered_books state
              /\ top_book state' = top_book state
              /\ presentation state' = presentation state
          | FILTER =>
              books state' = books state
              /\ top_book state' = top_book state
              /\ presentation state' = presentation state
          | PRESENT =>
              books state' = books state
              /\ filtered_books state' = filtered_books state
          | NOOP => state' = state
          end.
Proof.
  intros H. split; [exact (returning_dispatch_frame _ _ _ _ H)|].
  destruct (returning_step_is_readable _ _ _ H) as [t Ht].
  exists t. split; [exact Ht|].
  rewrite (dispatch_equation catalog _ _ state Ht) in H. cbv zeta in H.
  destruct (classify (lower t)); cbn [outcome snd] in H.
  - destruct (fetched catalog _); [|discriminate].
    injection H as _ <-. repeat split.
  - injection H as _ <-. repeat split.
  - injection H as _ <-. repeat split.
  - injection H as _ <-. reflexivity.
Qed.

(** X8: of a step, the dispatcher uses the keyword group of its task text
    and nothing else: two steps of the same group, whatever their wording and
    their other keys, do the same from the same state.  What is fetched
    follows from the request in the state, not from the step. *)
Theorem dispatch_depends_on_group_only
    (step1 step2 : pyval) (t1 t2 : string) (state : BookState) :
  task_text step1 = Some t1 -> task_text step2 = Some t2 ->
  classify (lower t1) = classify (lower t2) ->
  dynamic_tool_agent catalog step1 state
  = dynamic_tool_agent catalog step2 state.
Proof.
  intros H1 H2 Hc.
  rewrite (dispatch_equation catalog _ _ state H1).
  rewrite (dispatch_equation catalog _ _ state H2).
  cbv zeta. rewrite Hc. reflexivity.
Qed.

(** X9: the first entry the FILTER step stores is the best rated book of
    [books], the earliest one when several share the best rating: every book
    before it in [books] is rated strictly lower, every book after it at most
    as high. *)
Theorem filter_step_puts_first_best_rated_first
    (step : pyval) (t : string) (state state' : BookState) (v : retval)
    (b : Book) (l : list Book) :
  task_text step = Some t -> classify (lower t) = FILTER ->
  books state = Some (b :: l) ->
  outcome (dynamic_tool_agent catalog step state) = Ok (v, state') ->
  exists best pre post rest,
    b :: l = pre ++ best :: post
    /\ Forall (fun x => (rating x < rating best)%Q) pre
    /\ Forall (fun x => (rating x <= rating best)%Q) post
    /\ filtered_books state' = Some (to_pick best :: rest).
Proof.
  intros Ht Hc Hb H.
  rewrite (dispatch_equation catalog _ _ state Ht), Hc in H.
  cbv zeta in H. unfold outcome, snd in H. rewrite Hb in H.
  change (get_default (Some (b :: l)) []) with (b :: l) in H.
  destruct (sorted rating true (b :: l)) as [|best t'] eqn:E;
    injection H as _ <-.
  - exfalso.
    pose proof (Permutation_length
                  (proj1 (sorted_reverse_spec _ rating (b :: l)))) as Hl.
    rewrite E in Hl. discriminate.
  - destruct (sorted_head_is_first_best _ _ _ E) as (pre & post & E' & H1 & H2).
    exists best, pre, post, (map to_pick t'). repeat split; assumption.
Qed.

(** X10: a filter, present or unmatched step run again right after itself
    returns the same value and leaves the state as it is. *)
Theorem non_fetch_step_is_idempotent
    (step : pyval) (t : string) (state state' : BookState) (v : retval) :
  task_text step = Some t -> classify (lower t) <> FETCH ->
  outcome (dynamic_tool_agent catalog step state) = Ok (v, state') ->
  outcome (dynamic_tool_agent catalog step state') = Ok (v, state').
Proof.
  intros Ht Hc H.
  rewrite (dispatch_equation catalog _ _ state' Ht).
  rewrite (dispatch_equation catalog _ _ state Ht) in H.
  cbv zeta in *. destruct (classify (lower t)); [congruence| | |];
    cbn [outcome snd] in *; injection H as <- <-; reflexivity.
Qed.
End DispatcherMore.

(** *** Worked cases *)

Lemma dispatch_keeps_control_fields_witness :
  (user_query shelved_filtered = user_query shelved
   /\ plan shelved_filtered = plan shelved
   /\ current_step shelved_filtered = current_step shelved
   /\ done shelved_filtered = done shelved)
  /\ books shelved_filtered = books shelved.
Proof.
  destruct (dispatch_keeps_control_fields offline (step_of "Filter by rating")
              shelved shelved_filtered
              (RetBooks [book "B" 5; book "A" 4; book "C" 4]) eq_refl)
    as [H _].
  split; [exact H | reflexivity].
Defined.

Lemma dispatch_depends_on_group_only_witness :
  dynamic_tool_agent (answering (Some three_volumes))
    (step_of "Search for fantasy novels") (initial_state "any good sci fi?")
  = dynamic_tool_agent (answering (Some three_volumes))
      (PDict [("note", PInt 1); ("task", PStr "QUERY the poetry shelf")])
      (initial_state "any good sci fi?")
  /\ trace (dynamic_tool_agent (answering (Some three_volumes))
              (step_of "Search for fantasy novels")
              (initial_state "any good sci fi?"))
     = [PrintDebugSubject "science fiction"; HttpGet "science fiction" 10].
Proof.
  split; [|reflexivity].
  apply (dispatch_depends_on_group_only (answering (Some three_volumes))
           (step_of "Search for fantasy novels")
           (PDict [("note", PInt 1); ("task", PStr "QUERY the poetry shelf")])
           "Search for fantasy novels" "QUERY the poetry shelf"
           (initial_state "any good sci fi?"));
    reflexivity.
Defined.

Lemma filter_step_puts_first_best_rated_first_witness :
  exists best pre post rest,
    shelf = pre ++ best :: post
    /\ Forall (fun x => (rating x < rating best)%Q) pre
    /\ Forall (fun x => (rating x <= rating best)%Q) post
    /\ filtered_books shelved_filtered = Some (to_pick best :: rest).
Proof.
  apply (filter_step_puts_first_best_rated_first offline
           (step_of "Filter by rating") "Filter by rating"
           shelved shelved_filtered
           (RetBooks [book "B" 5; book "A" 4; book "C" 4])
           (book "A" 4) [book "B" 5; book "C" 4]);
    reflexivity.
Defined.

Lemma non_fetch_step_is_idempotent_witness :
  outcome (dynamic_tool_agent offline (step_of "Filter by rating")
             shelved_filtered)
  = Ok (RetBooks [book "B" 5; book "A" 4; book "C" 4], shelved_filtered).
Proof.
  apply (non_fetch_step_is_idempotent offline (step_of "Filter by rating")
           "Filter by rating" shelved shelved_filtered
           (RetBooks [book "B" 5; book "A" 4; book "C" 4])).
  - reflexivity.
  - discriminate.
  - reflexivity.
Defined.

(** ** Plan Runner, continued *)

Section RunnerMore.
Variable catalog : string -> Z -> http_result.

(** A round that dispatches: the step at the index, then the bookkeeping. *)
Lemma tool_node_as_dispatch
    (state : BookState) (p : list pyval) (i : Z) (step : pyval) :
  plan state = Some p -> current_step state = Some i ->
  i < Z.of_nat (List.length p) ->
  list_getitem p i = Ok step ->
  tool_node catalog state
  = (r <- dynamic_tool_agent catalog step state ;;
     ret (advance i (Z.of_nat (List.length p)) (snd r))).
Proof.
  intros Hp Hi Hr Hstep. unfold tool_node. rewrite Hp, Hi.
  unfold lift. cbn [field]. rewrite !bind_ok. cbn [fst snd app].
  replace (i >=? Z.of_nat (List.length p)) with false
    by (symmetry; rewrite Z.geb_leb; apply Z.leb_gt; lia).
  rewrite Hstep. change (@pair (list event) (result pyval) [] (Ok step))
    with (ret step). rewrite bind_ret_l.
  rewrite <- surjective_pairing. reflexivity.
Qed.

(** X11: [tool_node] at the bounds.  Without a plan or a step counter in the
    state it raises [KeyError] and dispatches nothing.  With the counter at or
    past the end of the plan it only sets [done], and doing so again changes
    nothing.  A negative counter is an index from the end of the plan, as
    Python lists take it: the step found there is dispatched, and below
    [-len plan] the round raises [IndexError]. *)
Theorem tool_node_at_the_bounds (state : BookState) :
  match plan state, current_step state with
  | None, _ => tool_node catalog state = ([], Raise (KeyError "plan"))
  | Some _, None =>
      tool_node catalog state = ([], Raise (KeyError "current_step"))
  | Some p, Some i =>
      let n := Z.of_nat (List.length p) in
      (n <= i ->
       tool_node catalog state = ([], Ok (set_done state true))
       /\ tool_node catalog (set_done state true)
          = ([], Ok (set_done state true)))
      /\ (i < - n -> tool_node catalog state = ([], Raise IndexError))
      /\ (- n <= i < 0 ->
          exists step,
            nth_error p (Z.to_nat (i + n)) = Some step
            /\ tool_node catalog state
               = (r <- dynamic_tool_agent catalog step state ;;
                  ret (advance i n (snd r))))
  end.
Proof.
  destruct (plan state) as [p|] eqn:Hp.
  2: { unfold tool_node. rewrite Hp. reflexivity. }
  destruct (current_step state) as [i|] eqn:Hi.
  2: { unfold tool_node. rewrite Hp, Hi. reflexivity. }
  cbv zeta. split; [|split].
  - intros Hr. split.
    + apply (tool_node_finishes catalog state p i Hp Hi Hr).
    + apply (tool_node_finishes catalog (set_done state true) p i Hp Hi Hr).
  - intros Hr. unfold tool_node. rewrite Hp, Hi.
    unfold lift. cbn [field]. rewrite !bind_ok. cbn [fst snd app].
    replace (i >=? Z.of_nat (List.length p)) with false
      by (symmetry; rewrite Z.geb_leb; apply Z.leb_gt; lia).
    unfold list_getitem.
    replace (i <? 0) with true by (symmetry; apply Z.ltb_lt; lia).
    replace (0 <=? i + Z.of_nat (List.length p)) with false
      by (symmetry; apply Z.leb_gt; lia).
    reflexivity.
  - intros Hr.
    assert (Hget : exists step,
               nth_error p (Z.to_nat (i + Z.of_nat (List.length p))) = Some step
               /\ list_getitem p i = Ok step).
    { unfold list_getitem.
      replace (i <? 0) with true by (symmetry; apply Z.ltb_lt; lia).
      replace (0 <=? i + Z.of_nat (List.length p)) with true
        by (symmetry; apply Z.leb_le; lia).
      replace (i + Z.of_nat (List.length p) <? Z.of_nat (List.length p))
        with true by (symmetry; apply Z.ltb_lt; lia).
      cbn [andb].
      destruct (nth_error p (Z.to_nat (i + Z.of_nat (List.length p))))
        as [step|] eqn:En; [eauto|].
      apply nth_error_None in En. lia. }
    destruct Hget as (step & Hn & Hget). exists step. split; [exact Hn|].
    apply tool_node_as_dispatch; try assumption. lia.
Qed.
End RunnerMore.

Lemma last_cons {A} (a : A) (l : list A) (d : A) : last (a :: l) d = last l a.
Proof.
  destruct l as [|b l]; [reflexivity|].
  change (last (a :: b :: l) d) with (last (b :: l) d).
  apply last_default_irrelevant. discriminate.
Qed.

Lemma list_getitem_middle {A} (pre : list A) (x : A) (post : list A) :
  list_getitem (pre ++ x :: post) (Z.of_nat (List.length pre)) = Ok x.
Proof.
  unfold list_getitem.
  replace (Z.of_nat (List.length pre) <? 0) with false
    by (symmetry; apply Z.ltb_ge; lia).
  replace (0 <=? Z.of_nat (List.length pre)) with true
    by (symmetry; apply Z.leb_le; lia).
  replace (Z.of_nat (List.length pre)
           <? Z.of_nat (List.length (pre ++ x :: post))) with true
    by (symmetry; apply Z.ltb_lt; rewrite length_app; cbn [List.length]; lia).
  cbn [andb]. rewrite Nat2Z.id, nth_error_app2, Nat.sub_diag by lia.
  reflexivity.
Qed.

Lemma bind_ok_ext {A B} (l : list event) (a : A) (f g : A -> M B) :
  f a = g a -> bind (l, Ok a) f = bind (l, Ok a) g.
Proof. intros H. unfold bind. rewrite H. reflexivity. Qed.

Section Loop.
Variable catalog : string -> Z -> http_result.

(** The executor rounds from step [len pre] on, and the same steps in a
    loop. *)
Lemma executor_is_loop (steps : list pyval) :
  forall (pre : list pyval) (state d : BookState) (fuel : nat),
    steps <> [] ->
    plan state = Some (pre ++ steps) ->
    current_step state = Some (Z.of_nat (List.length pre)) ->
    (List.length steps <= fuel)%nat ->
    (rest <- executor_stream catalog fuel state ;; ret (last rest d))
    = run_steps catalog steps (Z.of_nat (List.length pre))
        (Z.of_nat (List.length (pre ++ steps))) state.
Proof.
  induction steps as [|step steps IH]; intros pre state d fuel Hne Hp Hi Hfuel;
    [congruence|].
  destruct fuel as [|fuel]; [cbn [List.length] in Hfuel; lia|].
  cbn [executor_stream run_steps].
  rewrite (tool_node_as_dispatch catalog state _ _ step Hp Hi)
    by (try apply list_getitem_middle;
        rewrite length_app; cbn [List.length]; lia).
  set (n := Z.of_nat (List.length (pre ++ step :: steps))).
  set (i := Z.of_nat (List.length pre)).
  rewrite !bind_assoc.
  destruct (dynamic_tool_agent catalog step state) as [log [[v s']|e]] eqn:E;
    [|reflexivity].
  assert (Hframe : plan s' = plan state)
    by (eapply returning_dispatch_frame; rewrite E; reflexivity).
  apply bind_ok_ext. cbn [snd]. rewrite bind_ret_l.
  change (truthy (done (advance i n s'))) with (i + 1 >=? n).
  destruct steps as [|step2 steps].
  - replace (i + 1 >=? n) with true.
    2: { symmetry. rewrite Z.geb_leb. apply Z.leb_le. subst i n.
         rewrite length_app. cbn [List.length]. lia. }
    rewrite bind_ret_l. reflexivity.
  - replace (i + 1 >=? n) with false.
    2: { symmetry. rewrite Z.geb_leb. apply Z.leb_gt. subst i n.
         rewrite length_app. cbn [List.length]. lia. }
    rewrite bind_assoc.
    rewrite (bind_ext _ _ (fun rest => ret (last rest (advance i n s')))).
    2: { intros rest. rewrite bind_ret_l, last_cons. reflexivity. }
    rewrite (IH (pre ++ [step]) (advance i n s') (advance i n s') fuel).
    + rewrite <- app_assoc. cbn [app]. fold n.
      replace (Z.of_nat (List.length (pre ++ [step]))) with (i + 1)
        by (subst i; rewrite length_app; cbn [List.length]; lia).
      reflexivity.
    + discriminate.
    + cbn. rewrite Hframe, Hp, <- app_assoc. reflexivity.
    + cbn. f_equal. subst i. rewrite length_app. cbn [List.length]. lia.
    + cbn [List.length] in *. lia.
Qed.

(** The graph run and the loop over the plan. *)
Lemma app_invoke_as_loop
    (llm1 : option (string -> string))
    (literal_eval : string -> result pyval)
    (recursion_limit : nat) (initial : BookState) (p : list pyval) :
  outcome (plan_agent llm1 literal_eval (get_default (user_query initial) ""))
  = Ok p ->
  (Nat.max 1 (List.length p) <= recursion_limit)%nat ->
  let first := set_done (set_current_step (set_plan initial p) 0) false in
  app_invoke llm1 literal_eval catalog recursion_limit initial
  = match p with
    | [] => ([], Ok (set_done first true))
    | _ :: _ => run_steps catalog p 0 (Z.of_nat (List.length p)) first
    end.
Proof.
  intros Hplan Hfuel first.
  apply plan_agent_ok_is_silent in Hplan.
  unfold app_invoke, app_stream, plan_node. rewrite Hplan.
  change (@pair (list event) (result (list pyval)) [] (Ok p)) with (ret p).
  rewrite !bind_assoc, bind_ret_l, bind_ret_l. fold first.
  rewrite bind_assoc.
  rewrite (bind_ext _ _ (fun rest => ret (last rest first))).
  2: { intros rest. rewrite bind_ret_l, last_cons. reflexivity. }
  destruct p as [|step p].
  - destruct recursion_limit as [|limit]; [cbn in Hfuel; lia|].
    cbn [executor_stream].
    rewrite (tool_node_finishes catalog first [] 0 eq_refl eq_refl)
      by (cbn; lia).
    reflexivity.
  - apply (executor_is_loop (step :: p) [] first first recursion_limit).
    + discriminate.
    + reflexivity.
    + reflexivity.
    + lia.
Qed.

(** X12: the graph run is the plain loop over the plan.  With a plan [p]
    from the Planning Agent and enough rounds allowed, [app.invoke] ends as
    the loop does that dispatches the steps of [p] in order, each from the
    state the one before left: the same log, and the same final state or the
    same exception; the panel shows what that loop leaves.  For the empty
    plan the only round sets [done], and the panel shows the notice. *)
Theorem run_is_loop_over_plan
    (llm1 : option (string -> string))
    (literal_eval : string -> result pyval)
    (recursion_limit : nat) (query : string) (p : list pyval) :
  outcome (plan_agent llm1 literal_eval query) = Ok p ->
  (Nat.max 1 (List.length p) <= recursion_limit)%nat ->
  let first :=
    set_done (set_current_step (set_plan (initial_state query) p) 0) false in
  let loop :=
    match p with
    | [] => ([], Ok (set_done first true))
    | _ :: _ => run_steps catalog p 0 (Z.of_nat (List.length p)) first
    end in
  app_invoke llm1 literal_eval catalog recursion_limit (initial_state query)
  = loop
  /\ generate_recommendation llm1 literal_eval catalog recursion_limit query
     = match outcome loop with
       | Ok final => show final
       | Raise e => Error e
       end
  /\ (p = [] ->
      generate_recommendation llm1 literal_eval catalog recursion_limit query
      = Warning "No recommendations found.").
Proof.
  intros Hplan Hfuel first loop.
  assert (E : app_invoke llm1 literal_eval catalog recursion_limit
                (initial_state query) = loop)
    by (apply (app_invoke_as_loop llm1 literal_eval recursion_limit
                 (initial_state query) p Hplan Hfuel)).
  split; [exact E|]. unfold generate_recommendation. rewrite E.
  split; [reflexivity|]. intros ->. reflexivity.
Qed.
End Loop.

Lemma run_is_loop_over_plan_witness :
  app_invoke (Some (fun _ => example_reply)) Literal.literal_eval
    (answering (Some three_volumes)) 25
    (initial_state "Suggest the best science fiction book")
  = run_steps (answering (Some three_volumes)) example_plan 0
      (Z.of_nat (List.length example_plan))
      (set_done
         (set_current_step
            (set_plan (initial_state "Suggest the best science fiction book")
               example_plan) 0) false).
Proof.
  assert (H1 : outcome (plan_agent (Some (fun _ => example_reply))
                          Literal.literal_eval
                          "Suggest the best science fiction book")
               = Ok example_plan) by (vm_compute; reflexivity).
  assert (H2 : (Nat.max 1 (List.length example_plan) <= 25)%nat)
    by (simpl; lia).
  destruct (run_is_loop_over_plan (answering (Some three_volumes))
              (Some (fun _ => example_reply)) Literal.literal_eval 25
              "Suggest the best science fiction book"
              example_plan H1 H2) as [H _].
  rewrite H. unfold example_plan at 1. reflexivity.
Defined.

Lemma requests_app (l1 l2 : list event) :
  requests (l1 ++ l2) = (requests l1 + requests l2)%nat.
Proof. unfold requests. rewrite filter_app, length_app. reflexivity. Qed.

Lemma requests_warning (query : string) : requests (warning_of query) = 0%nat.
Proof. unfold warning_of. destruct (first_subject _ _); reflexivity. Qed.

Lemma asks_only_for_app (subject : string) (l1 l2 : list event) :
  asks_only_for subject l1 -> asks_only_for subject l2 ->
  asks_only_for subject (l1 ++ l2).
Proof. intros H1 H2. apply Forall_app. split; assumption. Qed.

Lemma asks_only_for_warning (subject query : string) :
  asks_only_for subject (warning_of query).
Proof.
  unfold warning_of, asks_only_for.
  destruct (first_subject _ _); repeat constructor; discriminate.
Qed.

Section LoopFacts.
Variable catalog : string -> Z -> http_result.

(** One dispatch of a readable step with the catalog answering: what it
    adds to the log and what it does to [presentation]. *)
Lemma dispatch_readable_log (step : pyval) (state : BookState) :
  readable step -> online catalog ->
  exists log v state',
    dynamic_tool_agent catalog step state = (log, Ok (v, state'))
    /\ dispatches log = 1%nat
    /\ requests log = (if is_fetch_step step then 1 else 0)%nat
    /\ asks_only_for (subject_of (get_default (user_query state) "")) log
    /\ user_query state' = user_query state
    /\ (if is_present_step step
        then presentation state' <> None
        else presentation state' = presentation state).
Proof.
  intros [t Ht] Hon. rewrite (dispatch_equation catalog _ _ state Ht).
  cbv zeta. unfold is_fetch_step, is_present_step, group_of.
  rewrite Ht. cbn [option_map].
  set (q := get_default (user_query state) "").
  assert (Hd : dispatches (warning_of q ++ [PrintDebugSubject (subject_of q)])
               = 1%nat)
    by (rewrite dispatches_app, dispatches_warning; reflexivity).
  assert (Hr : requests (warning_of q ++ [PrintDebugSubject (subject_of q)])
               = 0%nat)
    by (rewrite requests_app, requests_warning; reflexivity).
  assert (Ha : asks_only_for (subject_of q)
                 (warning_of q ++ [PrintDebugSubject (subject_of q)])).
  { apply asks_only_for_app; [apply asks_only_for_warning|].
    repeat constructor. discriminate. }
  destruct (classify (lower t)).
  - unfold fetched.
    destruct (catalog _ 10) as [|data] eqn:E; [exfalso; exact (Hon _ E)|].
    do 3 eexists. split; [reflexivity|].
    rewrite dispatches_app, requests_app, Hd, Hr.
    repeat split.
    apply asks_only_for_app; [exact Ha|]. repeat constructor.
  - do 3 eexists. split; [reflexivity|]. repeat split; assumption.
  - do 3 eexists. split; [reflexivity|].
    split; [exact Hd|]. split; [exact Hr|]. split; [exact Ha|].
    split; [reflexivity|]. discriminate.
  - do 3 eexists. split; [reflexivity|]. repeat split; assumption.
Qed.

(** The loop over readable steps with the catalog answering. *)
Lemma run_steps_readable (steps : list pyval) :
  forall (i n : Z) (state : BookState),
    Forall readable steps -> online catalog ->
    exists log final,
      run_steps catalog steps i n state = (log, Ok final)
      /\ dispatches log = List.length steps
      /\ requests log = List.length (filter is_fetch_step steps)
      /\ asks_only_for (subject_of (get_default (user_query state) "")) log
      /\ user_query final = user_query state
      /\ (presentation final = None
          <-> presentation state = None
              /\ filter is_present_step steps = []).
Proof.
  induction steps as [|step steps IH]; intros i n state Hall Hon.
  - exists [], state. repeat split; try tauto. constructor.
  - inversion Hall as [|? ? Hstep Hrest]; subst.
    destruct (dispatch_readable_log step state Hstep Hon)
      as (log1 & v & s1 & E & Hd & Hr & Ha & Hq & Hp).
    destruct (IH (i + 1) n (advance i n s1) Hrest Hon)
      as (log2 & final & E2 & Hd2 & Hr2 & Ha2 & Hq2 & Hp2).
    exists (log1 ++ log2), final.
    split.
    { cbn [run_steps]. rewrite E, bind_ok. cbn [fst snd]. rewrite E2.
      reflexivity. }
    split; [rewrite dispatches_app, Hd, Hd2; reflexivity|].
    split.
    { rewrite requests_app, Hr, Hr2. cbn [filter].
      destruct (is_fetch_step step); reflexivity. }
    split.
    { apply asks_only_for_app; [exact Ha|].
      change (user_query (advance i n s1)) with (user_query s1) in Ha2.
      rewrite Hq in Ha2. exact Ha2. }
    split; [rewrite Hq2; exact Hq|].
    change (presentation (advance i n s1)) with (presentation s1) in Hp2.
    rewrite Hp2. cbn [filter].
    destruct (is_present_step step).
    + split; [intros [H _]; contradiction | intros [_ H]; discriminate].
    + rewrite Hp. tauto.
Qed.
End LoopFacts.

Section RunFacts.
Variable llm1 : option (string -> string).
Variable literal_eval : string -> result pyval.
Variable catalog : string -> Z -> http_result.



End RunFacts.

Section ReadableRuns.
Variable llm1 : option (string -> string).
Variable literal_eval : string -> result pyval.
Variable catalog : string -> Z -> http_result.

(** A run over a readable plan with the catalog answering. *)
Lemma readable_run
    (recursion_limit : nat) (query : string) (p : list pyval) :
  outcome (plan_agent llm1 literal_eval query) = Ok p ->
  Forall readable p -> online catalog ->
  (Nat.max 1 (List.length p) <= recursion_limit)%nat ->
  exists log final,
    app_invoke llm1 literal_eval catalog recursion_limit (initial_state query)
    = (log, Ok final)
    /\ requests log = List.length (filter is_fetch_step p)
    /\ asks_only_for (subject_of query) log
    /\ user_query final = Some query
    /\ (presentation final = None <-> filter is_present_step p = []).
Proof.
  intros Hplan Hall Hon Hfuel.
  pose proof (app_invoke_as_loop catalog llm1 literal_eval recursion_limit
                (initial_state query) p Hplan Hfuel) as Eapp.
  cbv zeta in Eapp. rewrite Eapp. clear Eapp.
  destruct p as [|step p].
  - do 2 eexists. split; [reflexivity|]. repeat split; try reflexivity.
    constructor.
  - destruct (run_steps_readable catalog (step :: p) 0
                (Z.of_nat (List.length (step :: p)))
                (set_done (set_current_step
                             (set_plan (initial_state query) (step :: p)) 0)
                   false) Hall Hon)
      as (log & final & E & _ & Hr & Ha & Hq & Hp).
    exists log, final. split; [exact E|]. split; [exact Hr|].
    split; [exact Ha|]. split; [exact Hq|].
    rewrite Hp. cbn [presentation set_done set_current_step set_plan
                     initial_state]. tauto.
Qed.

(** X14: the catalog is asked once for every fetch step of the plan, no
    more and no less, so a plan with two fetch steps asks twice; and every
    request of a run asks for the subject of the original request, ten results
    at most.  The request text itself is never changed by the run. *)
Theorem run_asks_once_per_fetch_step
    (recursion_limit : nat) (query : string) (p : list pyval) :
  outcome (plan_agent llm1 literal_eval query) = Ok p ->
  Forall readable p -> online catalog ->
  (Nat.max 1 (List.length p) <= recursion_limit)%nat ->
  exists log final,
    app_invoke llm1 literal_eval catalog recursion_limit (initial_state query)
    = (log, Ok final)
    /\ requests log = List.length (filter is_fetch_step p)
    /\ asks_only_for (subject_of query) log
    /\ user_query final = Some query.
Proof.
  intros Hplan Hall Hon Hfuel.
  destruct (readable_run recursion_limit query p Hplan Hall Hon Hfuel)
    as (log & final & E & Hr & Ha & Hq & _).
  exists log, final. repeat split; assumption.
Qed.

(** X15: the panel shows the notice exactly when the plan has no present
    step; as soon as one step of the plan is a present step the panel shows a
    list, whatever the catalog returned and wherever the step stands in the
    plan. *)
Theorem notice_exactly_without_present_step
    (recursion_limit : nat) (query : string) (p : list pyval) :
  outcome (plan_agent llm1 literal_eval query) = Ok p ->
  Forall readable p -> online catalog ->
  (Nat.max 1 (List.length p) <= recursion_limit)%nat ->
  (generate_recommendation llm1 literal_eval catalog recursion_limit query
   = Warning "No recommendations found."
   <-> filter is_present_step p = [])
  /\ (filter is_present_step p <> [] ->
      exists titles,
        generate_recommendation llm1 literal_eval catalog recursion_limit query
        = Write titles).
Proof.
  intros Hplan Hall Hon Hfuel.
  destruct (readable_run recursion_limit query p Hplan Hall Hon Hfuel)
    as (log & final & E & _ & _ & _ & Hp).
  unfold generate_recommendation. rewrite E. cbn [outcome snd]. unfold show.
  destruct (presentation final) as [titles|].
  - split.
    + split; [discriminate|]. intros H. apply Hp in H. discriminate.
    + intros _. exists titles. reflexivity.
  - split.
    + split; [intros _; apply Hp; reflexivity | reflexivity].
    + intros H. exfalso. apply H, Hp. reflexivity.
Qed.
End ReadableRuns.

(** *** Worked cases of the run *)

Lemma two_fetch_plan_readable :
  Forall readable
    [step_of "search"; step_of "query again"; step_of "filter"].
Proof. repeat constructor; eexists; reflexivity. Qed.


Lemma run_asks_once_per_fetch_step_witness :
  exists log final,
    app_invoke (Some (fun _ => two_fetch_reply)) Literal.literal_eval
      (answering (Some three_volumes)) 25 (initial_state "poems")
    = (log, Ok final)
    /\ requests log = 2%nat
    /\ asks_only_for "poetry" log
    /\ user_query final = Some "poems".
Proof.
  apply (run_asks_once_per_fetch_step
           (Some (fun _ => two_fetch_reply)) Literal.literal_eval
           (answering (Some three_volumes)) 25 "poems"
           [step_of "search"; step_of "query again"; step_of "filter"]).
  - vm_compute. reflexivity.
  - exact two_fetch_plan_readable.
  - intros subject. discriminate.
  - simpl. lia.
Defined.

Lemma notice_exactly_without_present_step_witness :
  generate_recommendation (Some (fun _ => two_fetch_reply)) Literal.literal_eval
    (answering (Some three_volumes)) 25 "poems"
  = Warning "No recommendations found.".
Proof.
  apply (proj1 (notice_exactly_without_present_step
                  (Some (fun _ => two_fetch_reply)) Literal.literal_eval
                  (answering (Some three_volumes)) 25 "poems"
                  [step_of "search"; step_of "query again"; step_of "filter"]
                  ltac:(vm_compute; reflexivity) two_fetch_plan_readable
                  ltac:(intros subject; discriminate) ltac:(simpl; lia))).
  reflexivity.
Defined.

(** ** From the catalog to the recommendation *)

Lemma map_eq_middle {A B} (f : A -> B) (l : list A) (pre' : list B) (x' : B)
    (post' : list B) :
  map f l = pre' ++ x' :: post' ->
  exists pre x post,
    l = pre ++ x :: post /\ map f pre = pre' /\ f x = x' /\ map f post = post'.
Proof.
  revert pre'. induction l as [|a l IH]; intros pre' E.
  - destruct pre'; discriminate.
  - destruct pre' as [|b pre']; cbn in E; injection E as Ea E.
    + exists [], a, l. repeat split; assumption.
    + destruct (IH pre' E) as (pre & x & post & -> & Hpre & Hx & Hpost).
      exists (a :: pre), x, post. cbn. rewrite Ea, Hpre. repeat split; assumption.
Qed.

Section Recommendation.
Variable llm1 : option (string -> string).
Variable literal_eval : string -> result pyval.
Variable catalog : string -> Z -> http_result.

(** X16: after a fetch step, a filter step and a present step, with at least
    one record in the answer, [top_book] is the best rated record of the
    answer, the earliest one when several share the best rating (a record
    without rating counting as rated 0), with its title and authors; and its
    title is the first title of [presentation]. *)
Theorem top_book_is_first_best_rated_record
    (recursion_limit : nat) (query : string)
    (s1 s2 s3 : pyval) (t1 t2 t3 : string) (data : Volumes)
    (it : Item) (its : list Item) :
  outcome (plan_agent llm1 literal_eval query) = Ok [s1; s2; s3] ->
  task_text s1 = Some t1 -> classify (lower t1) = FETCH ->
  task_text s2 = Some t2 -> classify (lower t2) = FILTER ->
  task_text s3 = Some t3 -> classify (lower t3) = PRESENT ->
  catalog (subject_of query) 10 = HttpJson data ->
  items data = Some (it :: its) ->
  (3 <= recursion_limit)%nat ->
  exists log final best pre post rest,
    app_invoke llm1 literal_eval catalog recursion_limit (initial_state query)
    = (log, Ok final)
    /\ it :: its = pre ++ best :: post
    /\ Forall (fun x => (item_rating x < item_rating best)%Q) pre
    /\ Forall (fun x => (item_rating x <= item_rating best)%Q) post
    /\ top_book final
       = Some (FirstPick {| p_title := item_title best;
                            p_authors := item_authors best |})
    /\ presentation final = Some (item_title best :: rest).
Proof.
  intros Hplan H1 C1 H2 C2 H3 C3 Hdata Hitems Hfuel.
  pose proof (app_invoke_as_loop catalog llm1 literal_eval recursion_limit
                (initial_state query) [s1; s2; s3] Hplan) as Eapp.
  cbv zeta in Eapp. rewrite Eapp by (cbn; lia). clear Eapp.
  set (st0 := set_done (set_current_step
                          (set_plan (initial_state query) [s1; s2; s3]) 0) false).
  set (books0 := map to_book (map book_record (it :: its))).
  destruct (sorted rating true books0) as [|b0 sorted'] eqn:Es.
  { exfalso.
    pose proof (Permutation_length
                  (proj1 (sorted_reverse_spec _ rating books0))) as Hl.
    rewrite Es in Hl. discriminate. }
  destruct (sorted_head_is_first_best _ _ _ Es) as (pre' & post' & E' & Hpre & Hpost).
  unfold books0 in E'. rewrite map_map in E'.
  destruct (map_eq_middle _ _ _ _ _ E')
    as (pre & best & post & Esplit & <- & <- & <-).
  cbn [run_steps].
  rewrite (dispatch_equation catalog s1 t1 st0 H1), C1. cbv zeta.
  unfold fetched.
  change (get_default (user_query st0) "") with query.
  rewrite Hdata, Hitems. cbn [get_default]. fold books0.
  rewrite bind_ok. cbn [fst snd].
  set (st1 := advance 0 (Z.of_nat (List.length [s1; s2; s3]))
                (set_books st0 books0)).
  rewrite (dispatch_equation catalog s2 t2 st1 H2), C2. cbv zeta.
  change (get_default (books st1) []) with books0. rewrite Es.
  rewrite bind_ok. cbn [fst snd].
  match goal with
  | |- context [dynamic_tool_agent catalog s3 ?st] => set (st2 := st)
  end.
  rewrite (dispatch_equation catalog s3 t3 st2 H3), C3. cbv zeta.
  change (get_default (filtered_books st2) [])
    with (to_pick (to_book (book_record best)) :: map to_pick sorted').
  rewrite bind_ok. cbn [fst snd run_steps ret].
  do 2 eexists. exists best, pre, post. eexists.
  split; [reflexivity|]. split; [exact Esplit|].
  split; [rewrite Forall_map in Hpre; exact Hpre|].
  split; [rewrite Forall_map in Hpost; exact Hpost|].
  split; reflexivity.
Qed.
End Recommendation.

Lemma top_book_is_first_best_rated_record_witness :
  exists log final best pre post rest,
    app_invoke (Some (fun _ => example_reply)) Literal.literal_eval
      (answering (Some three_volumes)) 25
      (initial_state "Suggest the best science fiction book")
    = (log, Ok final)
    /\ three_volumes = pre ++ best :: post
    /\ Forall (fun x => (item_rating x < item_rating best)%Q) pre
    /\ Forall (fun x => (item_rating x <= item_rating best)%Q) post
    /\ top_book final
       = Some (FirstPick {| p_title := item_title best;
                            p_authors := item_authors best |})
    /\ presentation final = Some (item_title best :: rest).
Proof.
  apply (top_book_is_first_best_rated_record
           (Some (fun _ => example_reply)) Literal.literal_eval
           (answering (Some three_volumes)) 25
           "Suggest the best science fiction book"
           (nth 0 example_plan PNone) (nth 1 example_plan PNone)
           (nth 2 example_plan PNone)
           "Query a book database or API for science fiction books."
           "Filter the results to identify books with high ratings."
           "Present the book with the highest overall score based on the ranking criteria as the suggested best science fiction book."
           {| items := Some three_volumes |}
           (volume "A" (Some 4%Q))
           [volume "B" (Some 5%Q); volume "C" (Some 4%Q)]);
    try (vm_compute; reflexivity).
  lia.
Defined.

(** ** Steps out of order *)

Section OutOfOrder.
Variable llm1 : option (string -> string).
Variable literal_eval : string -> result pyval.
Variable catalog : string -> Z -> http_result.

Lemma run_steps_app (a b : list pyval) :
  forall (i n : Z) (state : BookState),
    run_steps catalog (a ++ b) i n state
    = (s <- run_steps catalog a i n state ;;
       run_steps catalog b (i + Z.of_nat (List.length a)) n s).
Proof.
  induction a as [|step a IH]; intros i n state.
  - cbn [app run_steps List.length]. rewrite bind_ret_l.
    replace (i + Z.of_nat 0) with i by lia. reflexivity.
  - cbn [app run_steps]. rewrite bind_assoc. apply bind_ext. intros r.
    rewrite IH. apply bind_ext. intros s.
    replace (i + 1 + Z.of_nat (List.length a))
      with (i + Z.of_nat (List.length (step :: a)))
      by (cbn [List.length]; lia).
    reflexivity.
Qed.

(** What a readable step that is no filter step, or no present step, keeps. *)
Lemma dispatch_readable_keeps (step : pyval) (state : BookState) :
  readable step -> online catalog ->
  exists log v state',
    dynamic_tool_agent catalog step state = (log, Ok (v, state'))
    /\ (is_filter_step step = false ->
        filtered_books state' = filtered_books state)
    /\ (is_present_step step = false ->
        presentation state' = presentation state).
Proof.
  intros [t Ht] Hon. rewrite (dispatch_equation catalog _ _ state Ht).
  cbv zeta. unfold is_filter_step, is_present_step, group_of.
  rewrite Ht. cbn [option_map].
  destruct (classify (lower t)).
  - unfold fetched.
    destruct (catalog _ 10) as [|data] eqn:E; [exfalso; exact (Hon _ E)|].
    do 3 eexists. split; [reflexivity|]. split; reflexivity.
  - do 3 eexists. split; [reflexivity|]. split; [discriminate | reflexivity].
  - do 3 eexists. split; [reflexivity|]. split; [reflexivity | discriminate].
  - do 3 eexists. split; [reflexivity|]. split; reflexivity.
Qed.

Lemma run_steps_keeps (steps : list pyval) :
  forall (i n : Z) (state : BookState),
    Forall readable steps -> online catalog ->
    exists log final,
      run_steps catalog steps i n state = (log, Ok final)
      /\ (filter is_filter_step steps = [] ->
          filtered_books final = filtered_books state)
      /\ (filter is_present_step steps = [] ->
          presentation final = presentation state).
Proof.
  induction steps as [|step steps IH]; intros i n state Hall Hon.
  - exists [], state. repeat split.
  - inversion Hall as [|? ? Hstep Hrest]; subst.
    destruct (dispatch_readable_keeps step state Hstep Hon)
      as (log1 & v & s1 & E & Hf & Hp).
    destruct (IH (i + 1) n (advance i n s1) Hrest Hon)
      as (log2 & final & E2 & Hf2 & Hp2).
    exists (log1 ++ log2), final. split.
    { cbn [run_steps]. rewrite E, bind_ok. cbn [fst snd]. rewrite E2.
      reflexivity. }
    split.
    + cbn [filter]. destruct (is_filter_step step); [discriminate|].
      intros H. rewrite (Hf2 H). exact (Hf eq_refl).
    + cbn [filter]. destruct (is_present_step step); [discriminate|].
      intros H. rewrite (Hp2 H). exact (Hp eq_refl).
Qed.

(** X17: steps are not checked for their order.  When the plan has a present
    step with no filter step before it and no present step after it, the panel
    shows the empty list, whatever the catalog returned to the fetch steps
    before: the present step found no [filtered_books] and a later filter
    step does not redo the presentation. *)
Theorem present_before_filter_shows_nothing
    (recursion_limit : nat) (query : string)
    (pre : list pyval) (s : pyval) (post : list pyval) :
  outcome (plan_agent llm1 literal_eval query) = Ok (pre ++ s :: post) ->
  Forall readable (pre ++ s :: post) -> online catalog ->
  filter is_filter_step pre = [] ->
  is_present_step s = true ->
  filter is_present_step post = [] ->
  (List.length (pre ++ s :: post) <= recursion_limit)%nat ->
  generate_recommendation llm1 literal_eval catalog recursion_limit query
  = Write [].
Proof.
  intros Hplan Hall Hon Hpre Hs Hpost Hfuel.
  remember (pre ++ s :: post) as p eqn:Ep.
  assert (Hlen : (1 <= List.length p)%nat)
    by (subst p; rewrite length_app; cbn [List.length]; lia).
  pose proof (app_invoke_as_loop catalog llm1 literal_eval recursion_limit
                (initial_state query) p Hplan) as Eapp.
  cbv zeta in Eapp. specialize (Eapp ltac:(lia)).
  set (first := set_done (set_current_step
                            (set_plan (initial_state query) p) 0) false) in *.
  set (n := Z.of_nat (List.length p)) in *.
  assert (Eloop : app_invoke llm1 literal_eval catalog recursion_limit
                    (initial_state query)
                  = run_steps catalog (pre ++ s :: post) 0 n first).
  { rewrite Eapp, <- Ep. destruct p; [cbn in Hlen; lia | reflexivity]. }
  clear Eapp. rewrite Ep in Hall.
  apply Forall_app in Hall. destruct Hall as [Hall_pre Hall_rest].
  apply Forall_cons_iff in Hall_rest. destruct Hall_rest as [Hread_s Hall_post].
  destruct (run_steps_keeps pre 0 n first Hall_pre Hon)
    as (log1 & st1 & E1 & Hf1 & _).
  specialize (Hf1 Hpre). cbn in Hf1.
  destruct Hread_s as [t Ht].
  assert (Hc : classify (lower t) = PRESENT).
  { unfold is_present_step, group_of in Hs. rewrite Ht in Hs. cbn in Hs.
    destruct (classify (lower t)); congruence. }
  set (i := 0 + Z.of_nat (List.length pre)) in *.
  pose proof (dispatch_equation catalog s t st1 Ht) as E2.
  cbv zeta in E2. rewrite Hc, Hf1 in E2. cbn [get_default firstn map] in E2.
  match type of E2 with
  | _ = (?l, Ok (?v, ?st)) => set (log2 := l) in E2; set (st2 := st) in E2
  end.
  destruct (run_steps_keeps post (i + 1) n (advance i n st2) Hall_post Hon)
    as (log3 & final & E3 & _ & Hp3).
  specialize (Hp3 Hpost). cbn in Hp3.
  unfold generate_recommendation. rewrite Eloop, run_steps_app, E1, bind_ok.
  cbn [fst snd run_steps]. fold i. rewrite E2, bind_ok. cbn [fst snd].
  rewrite E3. cbn [outcome snd]. unfold show. rewrite Hp3. reflexivity.
Qed.
End OutOfOrder.

Lemma present_before_filter_shows_nothing_witness :
  generate_recommendation (Some (fun _ => misordered_reply))
    Literal.literal_eval (answering (Some three_volumes)) 25 "poems"
  = Write [].
Proof.
  apply (present_before_filter_shows_nothing
           (Some (fun _ => misordered_reply)) Literal.literal_eval
           (answering (Some three_volumes)) 25 "poems"
           [step_of "search"] (step_of "recommend one") [step_of "filter"]).
  - vm_compute. reflexivity.
  - repeat constructor; eexists; reflexivity.
  - intros subject. discriminate.
  - reflexivity.
  - reflexivity.
  - reflexivity.
  - simpl. lia.
Defined.

(** ** Book Data Fetcher, continued *)

(** X18: [fetch_books] sends exactly one request, with the subject and the
    bound it was given, whether the request fails, finds nothing or finds
    records.  A failed request raises; an answer without the [items] member
    and an answer with an empty one both give the empty list; otherwise the
    records come one per item, in the order of the answer, nothing dropped and
    nothing cut to the bound. *)
Theorem fetch_books_one_request_one_record_per_item
    (catalog : string -> Z -> http_result) (subject : string) (max_results : Z) :
  let run := fetch_books catalog subject max_results in
  trace run = [HttpGet subject max_results]
  /\ match catalog subject max_results with
     | HttpFailure => outcome run = Raise NetworkError
     | HttpJson data =>
         let found := get_default (items data) [] in
         exists records,
           outcome run = Ok records
           /\ List.length records = List.length found
           /\ (forall i it, nth_error found i = Some it ->
                            nth_error records i = Some (book_record it))
           /\ (items data = None \/ items data = Some [] -> records = [])
     end.
Proof.
  cbv zeta. unfold fetch_books. unfold emit. rewrite bind_ok.
  destruct (catalog subject max_results) as [|data];
    cbn [trace outcome fst snd]; [split; reflexivity|].
  assert (E : match get_default (items data) [] with
              | [] => ret []
              | _ :: _ => ret (map book_record (get_default (items data) []))
              end
              = ret (map book_record (get_default (items data) [])))
    by (destruct (get_default (items data) []); reflexivity).
  rewrite E. cbn [ret fst snd app]. split; [reflexivity|].
  eexists. split; [reflexivity|]. split; [apply length_map|]. split.
  - intros i it H. rewrite nth_error_map, H. reflexivity.
  - intros [H|H]; rewrite H; reflexivity.
Qed.
